(** * guMCP simple-tools-server: the per-user key-value store

    A shallow embedding of [src/servers/simple-tools-server/main.py]:
    the module-level dict [user_data_stores], [create_server], the
    authentication gate [get_simple_tools_credentials] and the tool
    dispatcher [handle_call_tool], followed by the properties the
    specification states about them.

    Modelling decisions, all of them visible in the definitions below:
    - A Python [str] is a [string]; each [ascii] is read as the character
      with that code point (code points above 255 are outside the model).
    - A Python [dict] from [str] to [str] keeps insertion order, so a
      per-user table is an association list with dict update semantics.
    - Dict objects are mutable and can be aliased: [user_data_stores] maps
      a user identifier to the location of a dict object in a heap.
    - A Python exception is an [outcome]; the handler is written in a
      state-and-exception monad over the heap and [user_data_stores].
    - The auth client, the process environment, [uuid.uuid4] and
      [time.time] belong to the host; their answers for one call are the
      fields of a [host] record passed to that call. The auth client
      answers with nothing, a string or a dict of strings and does not
      raise.
    - The values of a tool's argument object are strings, as the input
      schemas of [handle_list_tools] declare.
    - Logging has no effect on any result and is left out. *)

From Stdlib Require Import Ascii String ZArith.
From stdpp Require Import base gmap list strings pretty.

Local Open Scope string_scope.
Local Open Scope list_scope.

(** ** Python strings and truthiness *)

Definition quote_char : ascii := ascii_of_nat 34.
Definition backslash_char : ascii := ascii_of_nat 92.
Definition newline_char : ascii := ascii_of_nat 10.

Definition str1 (c : ascii) : string := String c EmptyString.

(** [bool(s)] for a [str]: false exactly for the empty string. *)
Definition str_truthy (s : string) : bool :=
  match s with
  | EmptyString => false
  | String _ _ => true
  end.

(** [bool(x)] for an [Optional[str]]: [None] and the empty string are false. *)
Definition opt_truthy (o : option string) : bool :=
  match o with
  | None => false
  | Some s => str_truthy s
  end.

(** The string carried by a truthy [Optional[str]]: what survives a
    guard of the form [if not x: raise ...]. *)
Definition truthy_str (o : option string) : option string :=
  match o with
  | Some s => if str_truthy s then Some s else None
  | None => None
  end.

(** [str(x)] inside an f-string for an [Optional[str]]. *)
Definition format_opt (o : option string) : string :=
  match o with
  | None => "None"
  | Some s => s
  end.

(** [sep.join(parts)]. *)
Fixpoint str_join (sep : string) (parts : list string) : string :=
  match parts with
  | [] => ""
  | [p] => p
  | p :: rest => p +:+ sep +:+ str_join sep rest
  end.

(** [s[:n]]. *)
Definition str_prefix (n : nat) (s : string) : string := substring 0 n s.

(** ** Python dicts from [str] to [str], in insertion order *)

Abbreviation dict := (list (string * string)).

(** [d.get(k)] *)
Fixpoint dict_get (k : string) (d : dict) : option string :=
  match d with
  | [] => None
  | (k', v) :: rest => if String.eqb k k' then Some v else dict_get k rest
  end.

(** [k in d] *)
Definition dict_contains (k : string) (d : dict) : bool :=
  match dict_get k d with
  | Some _ => true
  | None => false
  end.

(** [d[k] = v]: an existing key keeps its position and takes the new value,
    a new key is appended. *)
Fixpoint dict_set (k v : string) (d : dict) : dict :=
  match d with
  | [] => [(k, v)]
  | (k', v') :: rest =>
      if String.eqb k k' then (k, v) :: rest else (k', v') :: dict_set k v rest
  end.

(** [bool(d)] *)
Definition dict_truthy (d : dict) : bool :=
  match d with
  | [] => false
  | _ :: _ => true
  end.

(** The keys of a dict object are pairwise distinct. *)
Definition dict_wf (d : dict) : Prop := NoDup d.*1.

(** ** [json.dumps] on the result objects the handler builds

    Default options: separators [", "] and [": "], [ensure_ascii=True]. *)

Inductive json : Type :=
  | JStr (s : string)
  | JInt (z : Z)
  | JBool (b : bool)
  | JDict (d : dict).

Abbreviation json_object := (list (string * json)).

Definition hex_digit (n : N) : ascii :=
  ascii_of_N (if (n <? 10)%N then 48 + n else 87 + n)%N.

(** One character under [py_encode_basestring_ascii]: the characters from
    space to tilde other than the quote and the backslash stand for
    themselves, the rest is escaped. *)
Definition json_escape_char (c : ascii) : string :=
  let n := N_of_ascii c in
  if (n =? 34)%N then String backslash_char (str1 quote_char)
  else if (n =? 92)%N then String backslash_char (str1 backslash_char)
  else if (n =? 8)%N then String backslash_char "b"
  else if (n =? 12)%N then String backslash_char "f"
  else if (n =? 10)%N then String backslash_char "n"
  else if (n =? 13)%N then String backslash_char "r"
  else if (n =? 9)%N then String backslash_char "t"
  else if ((n <? 32) || (126 <? n))%N then
    String backslash_char
      ("u00" +:+ String (hex_digit (n / 16)) (str1 (hex_digit (n mod 16))))
  else str1 c.

Fixpoint json_escape (s : string) : string :=
  match s with
  | EmptyString => ""
  | String c rest => json_escape_char c +:+ json_escape rest
  end.

Definition json_string (s : string) : string :=
  str1 quote_char +:+ json_escape s +:+ str1 quote_char.

Definition json_dumps_dict (d : dict) : string :=
  "{" +:+ str_join ", "
            (map (λ kv, json_string kv.1 +:+ ": " +:+ json_string kv.2) d)
      +:+ "}".

Definition json_dumps_value (j : json) : string :=
  match j with
  | JStr s => json_string s
  | JInt z => pretty z
  | JBool b => if b then "true" else "false"
  | JDict d => json_dumps_dict d
  end.

Definition json_dumps (o : json_object) : string :=
  "{" +:+ str_join ", "
            (map (λ kv, json_string kv.1 +:+ ": " +:+ json_dumps_value kv.2) o)
      +:+ "}".

(** Field access on a result object, used to state properties. *)
Fixpoint json_field (k : string) (o : json_object) : option json :=
  match o with
  | [] => None
  | (k', j) :: rest => if String.eqb k k' then Some j else json_field k rest
  end.

(** ** The process state: dict objects and [user_data_stores] *)

Abbreviation loc := nat.

(** [heap] holds the dict objects bound in [user_data_stores]; the
    module-level [user_data_stores] maps a user identifier (a [str], or
    [None] when the server has no user) to the location of its table. *)
Record state := State {
  heap : list dict;
  user_data_stores : gmap (option string) loc
}.

(** [user_data_stores = {}] at import time. *)
Definition init_state : state := State [] ∅.

(** A reference to a dict object: one bound in [user_data_stores], or a
    fresh object that only the running call holds. A fresh object has a
    single reference, so it is kept as a value until it is bound. *)
Inductive dict_ref : Type :=
  | Stored (l : loc)
  | Local (d : dict).

(** The dict object bound to [u] in [user_data_stores], if there is one. *)
Definition table_of (st : state) (u : option string) : option dict :=
  l ← user_data_stores st !! u; heap st !! l.

(** ** Exceptions and the handler monad *)

Inductive exn : Type :=
  | ValueError (msg : string).

(** [str(e)] *)
Definition exn_message (e : exn) : string :=
  match e with
  | ValueError msg => msg
  end.

Inductive outcome (A : Type) : Type :=
  | Return (a : A)
  | Raise (e : exn).
Arguments Return {A} a.
Arguments Raise {A} e.

Definition M (A : Type) : Type := state → outcome A * state.

Definition ret {A} (a : A) : M A := λ st, (Return a, st).

Definition raise {A} (e : exn) : M A := λ st, (Raise e, st).

Definition bind {A B} (m : M A) (k : A → M B) : M B := λ st,
  match m st with
  | (Return a, st') => k a st'
  | (Raise e, st') => (Raise e, st')
  end.

Notation "x <~ m ;; k" := (bind m (λ x, k))
  (at level 100, m at next level, right associativity).
Notation "m ;;; k" := (bind m (λ _, k))
  (at level 100, right associativity).

(** [user_data_stores.get(u, {})] *)
Definition user_data_stores_get (u : option string) : M dict_ref := λ st,
  match user_data_stores st !! u with
  | Some l => (Return (Stored l), st)
  | None => (Return (Local []), st)
  end.

(** Reading the dict object behind a reference. *)
Definition deref (r : dict_ref) : M dict := λ st,
  match r with
  | Stored l => (Return (default [] (heap st !! l)), st)
  | Local d => (Return d, st)
  end.

(** [r[k] = v]: a stored object is updated in place, so every reference
    to it sees the new entry. *)
Definition setitem (r : dict_ref) (k v : string) : M dict_ref := λ st,
  match r with
  | Stored l =>
      (Return (Stored l),
       State (alter (dict_set k v) l (heap st)) (user_data_stores st))
  | Local d => (Return (Local (dict_set k v d)), st)
  end.

(** [user_data_stores[u] = r] *)
Definition user_data_stores_setitem (u : option string) (r : dict_ref)
    : M unit := λ st,
  match r with
  | Stored l => (Return (), State (heap st) (<[u:=l]> (user_data_stores st)))
  | Local d =>
      (Return (),
       State (heap st ++ [d]) (<[u:=length (heap st)]> (user_data_stores st)))
  end.

(** [u not in user_data_stores] *)
Definition user_data_stores_lacks (u : option string) : M bool := λ st,
  (Return (bool_decide (user_data_stores st !! u = None)), st).

(** ** The host: auth collaborator, environment, clock, identifiers *)

(** What [auth_client.get_user_credentials] hands back: nothing, a bare
    string, or a dict whose [api_key] entry is read. *)
Inductive credentials : Type :=
  | CredNone
  | CredStr (s : string)
  | CredDict (d : gmap string string).

Record AuthClient := {
  get_user_credentials : string → option string → credentials
}.

Record host := {
  create_auth_client : option string → AuthClient;
  (** [os.environ.get("ENVIRONMENT")] *)
  environ_ENVIRONMENT : option string;
  (** [uuid.uuid4().hex] *)
  uuid4_hex : string;
  (** [int(time.time())] *)
  time_time : Z
}.

(** [bool(credentials_data)] *)
Definition credentials_truthy (c : credentials) : bool :=
  match c with
  | CredNone => false
  | CredStr s => str_truthy s
  | CredDict d => bool_decide (d ≠ ∅)
  end.

(** [credentials_data.get("api_key") if not isinstance(credentials_data,
    str) else credentials_data] *)
Definition credentials_api_key (c : credentials) : option string :=
  match c with
  | CredStr s => Some s
  | CredDict d => d !! "api_key"
  | CredNone => None
  end.

(** The inner [handle_missing_credentials] of
    [get_simple_tools_credentials]: it always raises. *)
Definition handle_missing_credentials (h : host) (user_id : option string)
    : exn :=
  let error_str :=
    "Simple Tools API key not found for user " +:+ format_opt user_id +:+ "." in
  let error_str :=
    if String.eqb (default "local" (environ_ENVIRONMENT h)) "local"
    then error_str +:+ " Please run authentication first."
    else error_str in
  ValueError error_str.

Definition get_simple_tools_credentials (h : host) (user_id : option string)
    (api_key : option string) : outcome string :=
  let auth_client := create_auth_client h api_key in
  let credentials_data :=
    get_user_credentials auth_client "simple-tools" user_id in
  if negb (credentials_truthy credentials_data)
  then Raise (handle_missing_credentials h user_id)
  else
    let api_key := credentials_api_key credentials_data in
    match truthy_str api_key with
    | None => Raise (handle_missing_credentials h user_id)
    | Some api_key => Return api_key
    end.

(** ** [create_server] and the tool dispatcher *)

Record Server := {
  user_id : option string;
  api_key : option string;
  config : option (gmap string string)
}.

Record TextContent := {
  type : string;
  text : string
}.

Definition create_server (user_id api_key : option string)
    (config : option (gmap string string)) : M Server :=
  let server :=
    {| user_id := user_id; api_key := api_key; config := config |} in
  if opt_truthy user_id then
    fresh <~ user_data_stores_lacks user_id ;;
    (if fresh : bool then user_data_stores_setitem user_id (Local [])
     else ret ()) ;;;
    ret server
  else ret server.

(** [bool(arguments)] for [arguments: dict | None] *)
Definition arguments_truthy (arguments : option (gmap string string)) : bool :=
  match arguments with
  | None => false
  | Some a => bool_decide (a ≠ ∅)
  end.

(** [arguments.get(k)], reached only when [arguments] is a dict. *)
Definition arguments_get (arguments : option (gmap string string))
    (k : string) : option string :=
  a ← arguments; a !! k.

Definition text_content (s : string) : TextContent :=
  {| type := "text"; text := s |}.

(** The result objects, one per dict literal of the handler. *)
Definition store_result (h : host) (key value : string) : json_object :=
  [("id", JStr ("store_" +:+ str_prefix 8 (uuid4_hex h)));
   ("status", JStr "success");
   ("action", JStr "store");
   ("key", JStr key);
   ("value", JStr value);
   ("message", JStr ("Stored '" +:+ key +:+ "' with value: " +:+ value));
   ("authenticated", JBool true);
   ("timestamp", JInt (time_time h))].

Definition retrieve_not_found_result (h : host) (key : string) : json_object :=
  [("id", JStr ("retrieve_" +:+ str_prefix 8 (uuid4_hex h)));
   ("status", JStr "not_found");
   ("action", JStr "retrieve");
   ("key", JStr key);
   ("message", JStr ("Key '" +:+ key +:+ "' not found"));
   ("timestamp", JInt (time_time h))].

Definition retrieve_success_result (h : host) (key value : string)
    : json_object :=
  [("id", JStr ("retrieve_" +:+ str_prefix 8 (uuid4_hex h)));
   ("status", JStr "success");
   ("action", JStr "retrieve");
   ("key", JStr key);
   ("value", JStr value);
   ("message", JStr ("Value for '" +:+ key +:+ "': " +:+ value));
   ("timestamp", JInt (time_time h))].

Definition list_empty_result (h : host) : json_object :=
  [("id", JStr ("list_" +:+ str_prefix 8 (uuid4_hex h)));
   ("status", JStr "empty");
   ("action", JStr "list");
   ("data", JDict []);
   ("count", JInt 0);
   ("message", JStr "No data stored");
   ("timestamp", JInt (time_time h))].

Definition list_success_result (h : host) (data_store : dict) : json_object :=
  [("id", JStr ("list_" +:+ str_prefix 8 (uuid4_hex h)));
   ("status", JStr "success");
   ("action", JStr "list");
   ("data", JDict data_store);
   ("count", JInt (Z.of_nat (length data_store)));
   ("message", JStr ("Found " +:+ pretty (length data_store) +:+ " items"));
   ("formatted_list",
    JStr (str_join (str1 newline_char)
            (map (λ kv, "- " +:+ kv.1 +:+ ": " +:+ kv.2) data_store)));
   ("timestamp", JInt (time_time h))].

Definition handle_call_tool (h : host) (server : Server) (name : string)
    (arguments : option (gmap string string)) : M (list TextContent) :=
  let current_user := user_id server in
  match get_simple_tools_credentials h current_user (api_key server) with
  | Raise e =>
      ret [text_content ("Authentication error: " +:+ exn_message e)]
  | Return _ =>
      data_store <~ user_data_stores_get current_user ;;
      if String.eqb name "store_data" then
        if negb (arguments_truthy arguments)
        then raise (ValueError "Missing arguments")
        else
          match truthy_str (arguments_get arguments "key"),
                truthy_str (arguments_get arguments "value") with
          | Some key, Some value =>
              data_store <~ setitem data_store key value ;;
              (if opt_truthy current_user
               then user_data_stores_setitem current_user data_store
               else ret ()) ;;;
              ret [text_content (json_dumps (store_result h key value))]
          | _, _ => raise (ValueError "Missing key or value")
          end
      else if String.eqb name "retrieve_data" then
        if negb (arguments_truthy arguments)
        then raise (ValueError "Missing arguments")
        else
          match truthy_str (arguments_get arguments "key") with
          | None => raise (ValueError "Missing key")
          | Some key =>
              d <~ deref data_store ;;
              let result :=
                match dict_get key d with
                | None => retrieve_not_found_result h key
                | Some v => retrieve_success_result h key v
                end in
              ret [text_content (json_dumps result)]
          end
      else if String.eqb name "list_data" then
        d <~ deref data_store ;;
        let result :=
          if negb (dict_truthy d) then list_empty_result h
          else list_success_result h d in
        ret [text_content (json_dumps result)]
      else raise (ValueError ("Unknown tool: " +:+ name))
  end.

(** ** Runs of the process *)

Inductive event : Type :=
  | CreateServer (user_id api_key : option string)
      (config : option (gmap string string))
  | CallTool (h : host) (server : Server) (name : string)
      (arguments : option (gmap string string)).

Definition step (st : state) (ev : event) : state :=
  match ev with
  | CreateServer u k c => (create_server u k c st).2
  | CallTool h server name arguments =>
      (handle_call_tool h server name arguments st).2
  end.

Definition run (tr : list event) (st : state) : state := foldl step st tr.

Definition reachable (st : state) : Prop := ∃ tr, st = run tr init_state.

(** The contents of [user_data_stores.get(u, {})]: the table a call on
    behalf of [u] works on. *)
Definition user_table (st : state) (u : option string) : dict :=
  default [] (table_of st u).

(** The authentication gate lets the call through. *)
Definition authenticated (h : host) (server : Server) : bool :=
  match get_simple_tools_credentials h (user_id server) (api_key server) with
  | Return _ => true
  | Raise _ => false
  end.

(** The credential payload the gate sees for this call, and the two ways
    the lookup can fail: a falsy payload, or a falsy [api_key] in it. *)
Definition credentials_for (h : host) (server : Server) : credentials :=
  get_user_credentials (create_auth_client h (api_key server))
    "simple-tools" (user_id server).

Definition lookup_fails (c : credentials) : Prop :=
  credentials_truthy c = false ∨ opt_truthy (credentials_api_key c) = false.

(** The argument objects of well-formed requests. *)
Definition store_data_args (key value : string) : option (gmap string string) :=
  Some {["key" := key; "value" := value]}.

Definition retrieve_data_args (key : string) : option (gmap string string) :=
  Some {["key" := key]}.

(** An argument is missing or empty: there is no argument object, or it
    has no such entry, or the entry is the empty string. *)
Definition missing_or_empty (arguments : option (gmap string string))
    (k : string) : Prop :=
  arguments_get arguments k = None ∨ arguments_get arguments k = Some "".

(** A sequence of [store_data] calls on one server, one host snapshot per
    call. *)
Definition store_calls (server : Server) (reqs : list (host * (string * string)))
    : list event :=
  map (λ r, CallTool r.1 server "store_data" (store_data_args r.2.1 r.2.2)) reqs.

(** The event is a [store_data] call on behalf of [u] that names [key]. *)
Definition stores_key (u : option string) (key : string) (ev : event) : Prop :=
  match ev with
  | CallTool _ server name arguments =>
      user_id server = u ∧ name = "store_data"
      ∧ arguments_get arguments "key" = Some key
  | CreateServer _ _ _ => False
  end.

(** The user on whose behalf an event acts. *)
Definition event_user (ev : event) : option string :=
  match ev with
  | CreateServer u _ _ => u
  | CallTool _ server _ _ => user_id server
  end.

(** The events of a run that act on behalf of [B], in order. *)
Definition own_events (B : option string) (tr : list event) : list event :=
  filter (λ ev, event_user ev = B) tr.

(** Invariant of the process state: every bound location holds a dict
    object, no two users share one, only truthy user identifiers are
    bound, and the keys of every dict object are distinct. *)
Record state_wf (st : state) : Prop := {
  wf_bound : ∀ u l, user_data_stores st !! u = Some l → l < length (heap st);
  wf_separate : ∀ u1 u2 l,
    user_data_stores st !! u1 = Some l → user_data_stores st !! u2 = Some l →
    u1 = u2;
  wf_truthy : ∀ u l, user_data_stores st !! u = Some l → opt_truthy u = true;
  wf_dicts : ∀ l d, heap st !! l = Some d → dict_wf d
}.

(** ** The statements checked against the code *)

(** The outcome is a single text block carrying [json.dumps(r)]. *)
Definition returns_record (out : outcome (list TextContent)) (r : json_object)
    : Prop :=
  out = Return [text_content (json_dumps r)].

(** [store_data(key, value)] and then [retrieve_data(key)] on the same
    server hands back a success record carrying [value]. *)
Definition store_then_retrieve (h1 h2 : host) (server : Server)
    (key value : string) (st : state) : Prop :=
  let st1 :=
    (handle_call_tool h1 server "store_data" (store_data_args key value) st).2 in
  returns_record
    (handle_call_tool h2 server "retrieve_data" (retrieve_data_args key) st1).1
    (retrieve_success_result h2 key value).

(** Two [store_data] calls for one key, then [retrieve_data]: the second
    value comes back and the table has one entry for the key. *)
Definition overwrite_then_retrieve (h1 h2 h3 : host) (server : Server)
    (key v1 v2 : string) (st : state) : Prop :=
  let st2 :=
    run [CallTool h1 server "store_data" (store_data_args key v1);
         CallTool h2 server "store_data" (store_data_args key v2)] st in
  returns_record
    (handle_call_tool h3 server "retrieve_data" (retrieve_data_args key) st2).1
    (retrieve_success_result h3 key v2)
  ∧ filter (λ kv, kv.1 = key) (user_table st2 (user_id server)) = [(key, v2)].

(** After the [store_data] calls [reqs], [list_data] reports success with
    exactly the stored entries. *)
Definition list_after_stores (h : host) (server : Server)
    (reqs : list (host * (string * string)))
    (arguments : option (gmap string string)) (st : state) : Prop :=
  returns_record
    (handle_call_tool h server "list_data" arguments
       (run (store_calls server reqs) st)).1
    (list_success_result h reqs.*2).

(** The handler raises the unknown-tool fault. *)
Definition raises_unknown_tool (h : host) (server : Server) (name : string)
    (arguments : option (gmap string string)) (st : state) : Prop :=
  (handle_call_tool h server name arguments st).1
  = Raise (ValueError ("Unknown tool: " +:+ name)).

(** The faults the handler raises for a bad argument object. *)
Definition invalid_argument (e : exn) : Prop :=
  e = ValueError "Missing arguments"
  ∨ e = ValueError "Missing key or value"
  ∨ e = ValueError "Missing key".

Definition raises_invalid_argument (out : outcome (list TextContent)) : Prop :=
  ∃ e, out = Raise e ∧ invalid_argument e.

(** A [store_data] by a server without a truthy user identifier reports
    success, saves nothing, and a following [retrieve_data] finds nothing. *)
Definition unsaved_store (h1 h2 : host) (server : Server)
    (key value : string) (st : state) : Prop :=
  let call := handle_call_tool h1 server "store_data"
                (store_data_args key value) st in
  returns_record call.1 (store_result h1 key value)
  ∧ call.2 = st
  ∧ returns_record
      (handle_call_tool h2 server "retrieve_data" (retrieve_data_args key)
         call.2).1
      (retrieve_not_found_result h2 key).

(** Concrete hosts and servers for the examples. *)
Definition demo_host (c : credentials) : host :=
  {| create_auth_client := λ _, {| get_user_credentials := λ _ _, c |};
     environ_ENVIRONMENT := None;
     uuid4_hex := "0123456789abcdef0123456789abcdef";
     time_time := 1640995200 |}.

Definition ok_host : host := demo_host (CredDict {["api_key" := "secret"]}).
Definition no_creds_host : host := demo_host CredNone.

Definition local_server : Server :=
  {| user_id := Some "local"; api_key := None; config := None |}.
Definition other_server : Server :=
  {| user_id := Some "other"; api_key := None; config := None |}.
Definition anonymous_server : Server :=
  {| user_id := None; api_key := None; config := None |}.
Definition empty_user_server : Server :=
  {| user_id := Some ""; api_key := None; config := None |}.

(** ** The rest of the module: prompts, the tool listing, the auth command *)

(** [c.isspace()] for a character below 256: tab to carriage return, the
    separators 28 to 31, the space, NEL and the no-break space. *)
Definition py_isspace (c : ascii) : bool :=
  let n := N_of_ascii c in
  ((9 <=? n) && (n <=? 13) || (28 <=? n) && (n <=? 32)
   || (n =? 133) || (n =? 160))%N.

(** [s.lstrip()], [s.rstrip()] and [s.strip()] *)
Fixpoint py_lstrip (s : string) : string :=
  match s with
  | EmptyString => ""
  | String c rest => if py_isspace c then py_lstrip rest else s
  end.

Fixpoint py_rstrip (s : string) : string :=
  match s with
  | EmptyString => ""
  | String c rest =>
      match py_rstrip rest with
      | EmptyString => if py_isspace c then "" else str1 c
      | kept => String c kept
      end
  end.

Definition py_strip (s : string) : string := py_rstrip (py_lstrip s).

(** Every character of the string is whitespace. *)
Fixpoint blank (s : string) : bool :=
  match s with
  | EmptyString => true
  | String c rest => py_isspace c && blank rest
  end.

(** [s.lower()] for characters below 256: the letters A to Z and the
    Latin-1 capitals (192 to 222 without the multiplication sign). *)
Definition py_lower_char (c : ascii) : ascii :=
  let n := N_of_ascii c in
  if ((65 <=? n) && (n <=? 90)
      || (192 <=? n) && (n <=? 222) && negb (n =? 215))%N
  then ascii_of_N (n + 32)
  else c.

Fixpoint py_lower (s : string) : string :=
  match s with
  | EmptyString => ""
  | String c rest => String (py_lower_char c) (py_lower rest)
  end.

(** One call of [auth_client.save_user_credentials]. *)
Record save_call := {
  save_service : string;
  save_user : option string;
  save_credentials : credentials
}.

(** [authenticate_and_save_credentials]: [input] is the line the user
    types at the prompt; the result comes with the calls made to
    [save_user_credentials]. *)
Definition authenticate_and_save_credentials (input : string)
    (user_id : option string) : outcome string * list save_call :=
  let api_key := py_strip input in
  if negb (str_truthy api_key)
  then (Raise (ValueError "API key cannot be empty"), [])
  else
    (Return api_key,
     [{| save_service := "simple-tools";
         save_user := user_id;
         save_credentials := CredDict {["api_key" := api_key]} |}]).

(** The [__main__] block: what it writes to standard output, the
    credentials it saves and the exception it ends with, if any. *)
Record process_result := {
  stdout : list string;
  saved : list save_call;
  uncaught : option exn
}.

Definition print (line : string) : string := line +:+ str1 newline_char.

(** [len(sys.argv) > 1 and sys.argv[1].lower() == "auth"] *)
Definition auth_requested (argv : list string) : bool :=
  match argv with
  | _ :: arg1 :: _ => String.eqb (py_lower arg1) "auth"
  | _ => false
  end.

Definition main (argv : list string) (input : string) : process_result :=
  let usage :=
    {| stdout :=
         [print "Usage:";
          print "  python main.py auth - Run authentication flow for a user";
          print ("Note: To run the server normally, "
                 +:+ "use the guMCP server framework.")];
       saved := [];
       uncaught := None |} in
  if auth_requested argv then
    let user_id := Some "local" in
    let r := authenticate_and_save_credentials input user_id in
    {| stdout := ["Please enter your Simple Tools API key: "];
       saved := r.2;
       uncaught := match r.1 with
                   | Raise e => Some e
                   | Return _ => None
                   end |}
  else usage.

(** Prompts. *)
Record Prompt := {
  prompt_name : string;
  prompt_description : string
}.

Record PromptMessage := {
  role : string;
  content : TextContent
}.

Record GetPromptResult := {
  description : string;
  messages : list PromptMessage
}.

Definition handle_list_prompts : list Prompt :=
  [{| prompt_name := "system";
      prompt_description := "Sample system prompt" |}].

Definition handle_get_prompt (name : string)
    (arguments : option (gmap string string)) : outcome GetPromptResult :=
  if String.eqb name "system" then
    let content :=
      str1 newline_char +:+ "Sample system prompt" +:+ str1 newline_char in
    Return {| description := "Sample system prompt";
              messages :=
                [{| role := "user"; content := text_content content |}] |}
  else Raise (ValueError ("Unknown prompt: " +:+ name)).

(** Python literals of strings, lists and dicts, for the JSON schemas. *)
#[warnings="-register-all"]
Inductive pyobj : Type :=
  | PStr (s : string)
  | PList (l : list pyobj)
  | PDict (d : list (string * pyobj)).

Record Tool := {
  tool_name : string;
  tool_description : string;
  inputSchema : pyobj;
  outputSchema : pyobj
}.

(** A string literal of the source that contains double quotes, written
    here with a backtick for every double quote. *)
Fixpoint py_literal (s : string) : string :=
  match s with
  | EmptyString => ""
  | String c rest =>
      String (if Ascii.eqb c (ascii_of_nat 96) then quote_char else c)
             (py_literal rest)
  end.

(** The example strings of the output schemas. *)
Definition store_data_example : string :=
  py_literal
    ("{`id`: `store_12345678`, `status`: `success`, "
     +:+ "`action`: `store`, `key`: `test_key`, "
     +:+ "`value`: `test_value`, "
     +:+ "`message`: `Stored 'test_key' with value: test_value`, "
     +:+ "`authenticated`: true, `timestamp`: 1640995200}").

Definition retrieve_success_example : string :=
  py_literal
    ("{`id`: `retrieve_87654321`, `status`: `success`, "
     +:+ "`action`: `retrieve`, `key`: `test_key`, "
     +:+ "`value`: `test_value`, "
     +:+ "`message`: `Value for 'test_key': test_value`, "
     +:+ "`timestamp`: 1640995260}").

Definition retrieve_not_found_example : string :=
  py_literal
    ("{`id`: `retrieve_11223344`, `status`: `not_found`, "
     +:+ "`action`: `retrieve`, `key`: `nonexistent_key`, "
     +:+ "`message`: `Key 'nonexistent_key' not found`, "
     +:+ "`timestamp`: 1640995260}").

Definition list_success_example : string :=
  py_literal
    ("{`id`: `list_55667788`, `status`: `success`, "
     +:+ "`action`: `list`, "
     +:+ "`data`: {`test_key`: `test_value`, "
     +:+ "`another_key`: `another_value`}, `count`: 2, "
     +:+ "`message`: `Found 2 items`, "
     +:+ "`formatted_list`: "
     +:+ "`- test_key: test_value\n- another_key: another_value`, "
     +:+ "`timestamp`: 1640995320}").

Definition list_empty_example : string :=
  py_literal
    ("{`id`: `list_99887766`, `status`: `empty`, "
     +:+ "`action`: `list`, `data`: {}, `count`: 0, "
     +:+ "`message`: `No data stored`, "
     +:+ "`timestamp`: 1640995320}").

(** The three entries of the list [handle_list_tools] returns. *)
Definition store_data_tool : Tool :=
  {| tool_name := "store_data";
     tool_description := "Store a key-value pair in the server";
     inputSchema :=
       PDict [("type", PStr "object");
              ("properties",
               PDict [("key", PDict [("type", PStr "string")]);
                      ("value", PDict [("type", PStr "string")])]);
              ("required", PList [PStr "key"; PStr "value"])];
     outputSchema :=
       PDict [("type", PStr "array");
              ("items", PDict [("type", PStr "string")]);
              ("description",
               PStr ("Array of JSON strings containing "
                     +:+ "the store operation result"));
              ("examples", PList [PStr store_data_example])] |}.

Definition retrieve_data_tool : Tool :=
  {| tool_name := "retrieve_data";
     tool_description := "Retrieve a value by its key";
     inputSchema :=
       PDict [("type", PStr "object");
              ("properties",
               PDict [("key", PDict [("type", PStr "string")])]);
              ("required", PList [PStr "key"])];
     outputSchema :=
       PDict [("type", PStr "array");
              ("items", PDict [("type", PStr "string")]);
              ("description",
               PStr ("Array of JSON strings containing "
                     +:+ "the retrieved value or error message"));
              ("examples",
               PList [PStr retrieve_success_example;
                      PStr retrieve_not_found_example])] |}.

Definition list_data_tool : Tool :=
  {| tool_name := "list_data";
     tool_description := "List all stored key-value pairs";
     inputSchema :=
       PDict [("type", PStr "object");
              ("properties", PDict [])];
     outputSchema :=
       PDict [("type", PStr "array");
              ("items", PDict [("type", PStr "string")]);
              ("description",
               PStr ("Array of JSON strings containing "
                     +:+ "all stored key-value pairs or no data message"));
              ("examples",
               PList [PStr list_success_example;
                      PStr list_empty_example])] |}.

Definition handle_list_tools : list Tool :=
  [store_data_tool; retrieve_data_tool; list_data_tool].

(** Reading a schema: [schema.get(k)], and the strings of a list entry
    such as [required] or [examples] (none when the entry is absent). *)
Fixpoint pyobj_assoc (k : string) (d : list (string * pyobj)) : option pyobj :=
  match d with
  | [] => None
  | (k', o) :: rest => if String.eqb k k' then Some o else pyobj_assoc k rest
  end.

Definition pyobj_get (k : string) (o : pyobj) : option pyobj :=
  match o with
  | PDict d => pyobj_assoc k d
  | _ => None
  end.

Definition pyobj_strings (o : option pyobj) : list string :=
  match o with
  | Some (PList l) =>
      omap (λ x, match x with PStr s => Some s | _ => None end) l
  | _ => []
  end.

Definition schema_required (schema : pyobj) : list string :=
  pyobj_strings (pyobj_get "required" schema).

Definition schema_examples (schema : pyobj) : list string :=
  pyobj_strings (pyobj_get "examples" schema).

(** A host that answers with stored credentials, a version-4 UUID that
    starts with the given eight digits, and the given clock. *)
Definition example_host (hex8 : string) (now : Z) : host :=
  {| create_auth_client :=
       λ _, {| get_user_credentials :=
                 λ _ _, CredDict {["api_key" := "secret"]} |};
     environ_ENVIRONMENT := None;
     uuid4_hex := hex8 +:+ "000040008000000000000000";
     time_time := now |}.

(** * Properties *)

(** ** Dict objects *)

Lemma dict_get_set_eq k v d : dict_get k (dict_set k v d) = Some v.
Proof.
  induction d as [|[k' v'] d IH]; simpl.
  - by rewrite String.eqb_refl.
  - destruct (String.eqb_spec k k') as [->|Hne]; simpl.
    + by rewrite String.eqb_refl.
    + by destruct (String.eqb_spec k k').
Qed.

Lemma dict_get_set_ne k k' v d :
  k ≠ k' → dict_get k' (dict_set k v d) = dict_get k' d.
Proof.
  intros Hne. induction d as [|[k0 v0] d IH]; simpl.
  - by destruct (String.eqb_spec k' k) as [->|].
  - destruct (String.eqb_spec k k0) as [->|Hk]; simpl.
    + destruct (String.eqb_spec k' k0) as [->|]; [done..].
    + by rewrite IH.
Qed.

Lemma dict_get_None k d : dict_get k d = None ↔ k ∉ d.*1.
Proof.
  induction d as [|[k' v'] d IH]; simpl.
  - split; [intros _; apply not_elem_of_nil | done].
  - rewrite not_elem_of_cons. destruct (String.eqb_spec k k') as [->|Hne].
    + split; [done | by intros [? _]].
    + rewrite IH. tauto.
Qed.

Lemma dict_set_fresh k v d : k ∉ d.*1 → dict_set k v d = d ++ [(k, v)].
Proof.
  induction d as [|[k' v'] d IH]; simpl; [done|].
  rewrite not_elem_of_cons. intros [Hne Hnotin].
  destruct (String.eqb_spec k k'); [done|]. by rewrite IH.
Qed.

Lemma dict_set_keys k v d :
  (dict_set k v d).*1 = if dict_contains k d then d.*1 else d.*1 ++ [k].
Proof.
  unfold dict_contains. induction d as [|[k' v'] d IH]; [done|].
  cbn [dict_set dict_get].
  destruct (String.eqb_spec k k') as [->|Hne]; [done|].
  rewrite !fmap_cons, IH. by destruct (dict_get k d).
Qed.

Lemma dict_set_wf k v d : dict_wf d → dict_wf (dict_set k v d).
Proof.
  unfold dict_wf. intros Hwf. rewrite dict_set_keys. unfold dict_contains.
  destruct (dict_get k d) eqn:Hget; [done|].
  apply dict_get_None in Hget.
  apply NoDup_app. split_and!; [done | | apply NoDup_singleton].
  intros x Hx ->%list_elem_of_singleton. done.
Qed.

(** After [d[k] = v] a well-formed dict holds exactly one entry for [k]. *)
Lemma dict_set_single k v d :
  dict_wf d → filter (λ kv, kv.1 = k) (dict_set k v d) = [(k, v)].
Proof.
  unfold dict_wf. induction d as [|[k' v'] d IH]; simpl; intros Hwf.
  - by rewrite filter_cons_True.
  - apply NoDup_cons in Hwf as [Hnotin Hwf].
    destruct (String.eqb_spec k k') as [->|Hne].
    + rewrite filter_cons_True by done. f_equal.
      clear IH Hwf. induction d as [|[k0 v0] d IH]; [done|].
      simpl in Hnotin. apply not_elem_of_cons in Hnotin as [? ?].
      rewrite filter_cons_False by (simpl; congruence). by apply IH.
    + rewrite filter_cons_False by (simpl; congruence). by apply IH.
Qed.

(** ** The authentication gate *)

Lemma authenticated_true h server :
  authenticated h server = true ↔
  ∃ k, get_simple_tools_credentials h (user_id server) (api_key server)
       = Return k.
Proof.
  unfold authenticated. split.
  - destruct (get_simple_tools_credentials _ _ _); [eauto | done].
  - by intros [k ->].
Qed.

Lemma authenticated_false h server :
  authenticated h server = false ↔
  get_simple_tools_credentials h (user_id server) (api_key server)
  = Raise (handle_missing_credentials h (user_id server)).
Proof.
  unfold authenticated, get_simple_tools_credentials. split.
  - destruct (negb _); [done|]. by destruct (truthy_str _).
  - by intros ->.
Qed.

(** The gate rejects the call exactly when the lookup fails. *)
Lemma lookup_fails_iff h server :
  lookup_fails (credentials_for h server) ↔ authenticated h server = false.
Proof.
  unfold lookup_fails, authenticated, get_simple_tools_credentials,
    credentials_for, credentials_api_key.
  destruct (get_user_credentials _ _ _) as [|s|d]; simpl.
  - tauto.
  - destruct s; simpl; tauto.
  - case_bool_decide; simpl; [|tauto].
    destruct (d !! "api_key") as [[|c s]|]; simpl; intuition congruence.
Qed.

(** ** One call of the handler *)

Lemma arguments_get_truthy arguments k s :
  arguments_get arguments k = Some s → arguments_truthy arguments = true.
Proof.
  destruct arguments as [a|]; simpl; [|done].
  intros Hk. apply bool_decide_eq_true. by intros ->.
Qed.

Lemma truthy_str_Some o s :
  truthy_str o = Some s ↔ o = Some s ∧ s ≠ "".
Proof.
  destruct o as [[|c t]|]; simpl; intuition congruence.
Qed.

Lemma truthy_str_None arguments k :
  truthy_str (arguments_get arguments k) = None ↔ missing_or_empty arguments k.
Proof.
  unfold missing_or_empty.
  destruct (arguments_get arguments k) as [[|c t]|]; simpl; split; try done;
    auto; intros [?|?]; done.
Qed.

Lemma deref_get st u :
  (data_store <~ user_data_stores_get u ;; deref data_store) st
  = (Return (user_table st u), st).
Proof.
  unfold bind, user_data_stores_get, deref, user_table, table_of.
  by destruct (user_data_stores st !! u).
Qed.

Section one_call.
Context (h : host) (server : Server).
Context (arguments : option (gmap string string)) (st : state).
Hypothesis Hauth : authenticated h server = true.

Lemma retrieve_data_spec key :
  truthy_str (arguments_get arguments "key") = Some key →
  handle_call_tool h server "retrieve_data" arguments st
  = (Return [text_content (json_dumps
       match dict_get key (user_table st (user_id server)) with
       | None => retrieve_not_found_result h key
       | Some v => retrieve_success_result h key v
       end)], st).
Proof using Hauth.
  intros Hkey. apply authenticated_true in Hauth as [k Hk].
  unfold handle_call_tool. rewrite Hk. simpl.
  pose proof Hkey as [Hget _]%truthy_str_Some.
  rewrite (arguments_get_truthy _ _ _ Hget). simpl. rewrite Hkey.
  unfold bind, user_data_stores_get, deref, user_table, table_of, ret.
  by destruct (user_data_stores st !! user_id server).
Qed.

Lemma list_data_spec :
  handle_call_tool h server "list_data" arguments st
  = (Return [text_content (json_dumps
       (if negb (dict_truthy (user_table st (user_id server)))
        then list_empty_result h
        else list_success_result h (user_table st (user_id server))))], st).
Proof using Hauth.
  apply authenticated_true in Hauth as [k Hk].
  unfold handle_call_tool. rewrite Hk. simpl.
  unfold bind, user_data_stores_get, deref, user_table, table_of, ret.
  by destruct (user_data_stores st !! user_id server).
Qed.

Lemma store_data_result key value :
  truthy_str (arguments_get arguments "key") = Some key →
  truthy_str (arguments_get arguments "value") = Some value →
  (handle_call_tool h server "store_data" arguments st).1
  = Return [text_content (json_dumps (store_result h key value))].
Proof using Hauth.
  intros Hkey Hvalue. apply authenticated_true in Hauth as [k Hk].
  unfold handle_call_tool. rewrite Hk. simpl.
  pose proof Hkey as [Hget _]%truthy_str_Some.
  rewrite (arguments_get_truthy _ _ _ Hget). simpl. rewrite Hkey, Hvalue.
  unfold bind, user_data_stores_get, setitem, user_data_stores_setitem, ret.
  destruct (user_data_stores st !! user_id server);
    by destruct (opt_truthy (user_id server)).
Qed.

Lemma unknown_tool_spec name :
  name ≠ "store_data" → name ≠ "retrieve_data" → name ≠ "list_data" →
  handle_call_tool h server name arguments st
  = (Raise (ValueError ("Unknown tool: " +:+ name)), st).
Proof using Hauth.
  intros H1 H2 H3. apply authenticated_true in Hauth as [k Hk].
  unfold handle_call_tool. rewrite Hk.
  unfold bind, user_data_stores_get, raise.
  destruct (String.eqb_spec name "store_data"); [done|].
  destruct (String.eqb_spec name "retrieve_data"); [done|].
  destruct (String.eqb_spec name "list_data"); [done|].
  by destruct (user_data_stores st !! user_id server).
Qed.
End one_call.

Lemma arguments_falsy_get arguments k :
  arguments_truthy arguments = false → arguments_get arguments k = None.
Proof.
  destruct arguments as [a|]; simpl; [|done].
  intros Hempty%bool_decide_eq_false. apply dec_stable in Hempty as ->.
  apply lookup_empty.
Qed.

Section argument_faults.
Context (h : host) (server : Server).
Context (arguments : option (gmap string string)) (st : state).
Hypothesis Hauth : authenticated h server = true.

Lemma store_data_outcome :
  (handle_call_tool h server "store_data" arguments st).1 =
  if negb (arguments_truthy arguments)
  then Raise (ValueError "Missing arguments")
  else
    match truthy_str (arguments_get arguments "key"),
          truthy_str (arguments_get arguments "value") with
    | Some key, Some value =>
        Return [text_content (json_dumps (store_result h key value))]
    | _, _ => Raise (ValueError "Missing key or value")
    end.
Proof using Hauth.
  destruct (truthy_str (arguments_get arguments "key")) as [key|] eqn:Hkey;
    [destruct (truthy_str (arguments_get arguments "value"))
       as [value|] eqn:Hvalue|].
  { pose proof Hkey as [Hget _]%truthy_str_Some.
    rewrite (arguments_get_truthy _ _ _ Hget). simpl.
    by apply store_data_result. }
  all: apply authenticated_true in Hauth as [k Hk];
    unfold handle_call_tool; rewrite Hk; simpl;
    unfold bind, user_data_stores_get, raise;
    destruct (user_data_stores st !! user_id server);
    destruct (arguments_truthy arguments); simpl;
    by rewrite ?Hkey, ?Hvalue.
Qed.

Lemma retrieve_data_outcome :
  (handle_call_tool h server "retrieve_data" arguments st).1 =
  if negb (arguments_truthy arguments)
  then Raise (ValueError "Missing arguments")
  else
    match truthy_str (arguments_get arguments "key") with
    | None => Raise (ValueError "Missing key")
    | Some key =>
        Return [text_content (json_dumps
          match dict_get key (user_table st (user_id server)) with
          | None => retrieve_not_found_result h key
          | Some v => retrieve_success_result h key v
          end)]
    end.
Proof using Hauth.
  destruct (truthy_str (arguments_get arguments "key")) as [key|] eqn:Hkey.
  { pose proof Hkey as [Hget _]%truthy_str_Some.
    rewrite (arguments_get_truthy _ _ _ Hget). simpl.
    by erewrite retrieve_data_spec. }
  apply authenticated_true in Hauth as [k Hk].
  unfold handle_call_tool. rewrite Hk. simpl.
  unfold bind, user_data_stores_get, raise.
  destruct (user_data_stores st !! user_id server);
    destruct (arguments_truthy arguments); simpl; by rewrite ?Hkey.
Qed.
End argument_faults.

(** ** The effect of a call on the state *)

(** A call leaves the state alone unless it is an authenticated
    [store_data] with a non-empty key and value. *)
Lemma handle_call_tool_cases h server name arguments st :
  (handle_call_tool h server name arguments st).2 = st ∨
  (authenticated h server = true ∧ name = "store_data" ∧
   ∃ key value,
     truthy_str (arguments_get arguments "key") = Some key ∧
     truthy_str (arguments_get arguments "value") = Some value).
Proof.
  unfold handle_call_tool, authenticated.
  destruct (get_simple_tools_credentials _ _ _) as [k|e]; [|by left].
  unfold bind, user_data_stores_get, deref, raise, ret.
  destruct (String.eqb_spec name "store_data") as [->|_].
  - destruct (arguments_truthy arguments); simpl;
      [|left; by destruct (user_data_stores st !! _)].
    destruct (truthy_str (arguments_get arguments "key")) as [key|];
      [|left; by destruct (user_data_stores st !! _)].
    destruct (truthy_str (arguments_get arguments "value")) as [value|];
      [|left; by destruct (user_data_stores st !! _)].
    right. eauto 10.
  - left. destruct (user_data_stores st !! _);
      destruct (String.eqb name "retrieve_data");
      destruct (arguments_truthy arguments); simpl;
      destruct (truthy_str (arguments_get arguments "key"));
      by destruct (String.eqb name "list_data").
Qed.

(** ** The state invariant *)

Lemma init_state_wf : state_wf init_state.
Proof. split; simpl; intros *; by rewrite ?lookup_empty, ?lookup_nil. Qed.

(** Binding a fresh dict object to a truthy user keeps the invariant and
    leaves every other user's table as it was. *)
Lemma bind_fresh_wf st u d :
  state_wf st → opt_truthy u = true → dict_wf d →
  state_wf (State (heap st ++ [d])
                  (<[u:=length (heap st)]> (user_data_stores st))).
Proof.
  intros [Hb Hs Ht Hd] Htruthy Hwfd. split; simpl.
  - intros u0 l0. rewrite length_app. simpl.
    rewrite lookup_insert. case_decide.
    + intros [= <-]. lia.
    + intros H0%Hb. lia.
  - intros u1 u2 l0. rewrite !lookup_insert.
    repeat case_decide; try congruence.
    + intros [= <-] H2%Hb. lia.
    + intros H1%Hb [= <-]. lia.
    + eauto.
  - intros u0 l0. rewrite lookup_insert. case_decide; [congruence|eauto].
  - intros l0 d0 [H0|[_ H0]]%lookup_app_Some; [eauto|].
    by apply list_lookup_singleton_Some in H0 as [_ <-].
Qed.

Lemma bind_fresh_other st u d u' :
  state_wf st → u' ≠ u →
  table_of (State (heap st ++ [d])
                  (<[u:=length (heap st)]> (user_data_stores st))) u'
  = table_of st u'.
Proof.
  intros Hwf Hne. unfold table_of. cbn [user_data_stores heap].
  rewrite lookup_insert_ne by done.
  destruct (user_data_stores st !! u') as [l'|] eqn:Hu';
    cbn [mbind option_bind]; [|done].
  apply lookup_app_l. by eapply wf_bound.
Qed.

Lemma bind_fresh_table st u d :
  table_of (State (heap st ++ [d])
                  (<[u:=length (heap st)]> (user_data_stores st))) u
  = Some d.
Proof.
  unfold table_of. cbn [user_data_stores heap].
  rewrite lookup_insert_eq. cbn [mbind option_bind].
  by rewrite list_lookup_middle.
Qed.

Section store_effect.
Context (h : host) (server : Server).
Context (arguments : option (gmap string string)) (st : state).
Context (key value : string).
Hypothesis Hauth : authenticated h server = true.
Hypothesis Hkey : truthy_str (arguments_get arguments "key") = Some key.
Hypothesis Hvalue : truthy_str (arguments_get arguments "value") = Some value.
Hypothesis Hwf : state_wf st.

Let u := user_id server.
Let st' := (handle_call_tool h server "store_data" arguments st).2.

Lemma store_data_state_eq :
  st' =
  match user_data_stores st !! u with
  | Some l =>
      State (alter (dict_set key value) l (heap st)) (user_data_stores st)
  | None =>
      if opt_truthy u
      then State (heap st ++ [[(key, value)]])
                 (<[u:=length (heap st)]> (user_data_stores st))
      else st
  end.
Proof using Hauth Hkey Hvalue Hwf.
  subst st' u. apply authenticated_true in Hauth as [k Hk].
  unfold handle_call_tool. rewrite Hk. simpl.
  pose proof Hkey as [Hget _]%truthy_str_Some.
  rewrite (arguments_get_truthy _ _ _ Hget). simpl. rewrite Hkey, Hvalue.
  unfold bind, user_data_stores_get, setitem, user_data_stores_setitem, ret.
  destruct (user_data_stores st !! user_id server) as [l|] eqn:Hu.
  - rewrite (wf_truthy _ Hwf _ _ Hu). simpl. by rewrite insert_id.
  - by destruct (opt_truthy (user_id server)).
Qed.

Lemma store_data_wf : state_wf st'.
Proof using Hauth Hkey Hvalue Hwf.
  rewrite store_data_state_eq. destruct Hwf as [Hb Hs Ht Hd].
  destruct (user_data_stores st !! u) as [l|] eqn:Hu.
  - split; simpl.
    + intros u0 l0 H0. rewrite length_alter. eauto.
    + done.
    + done.
    + intros l0 d. destruct (decide (l = l0)) as [<-|Hne].
      * rewrite list_lookup_alter_eq.
        intros (d0 & Hl & ->)%fmap_Some. apply dict_set_wf. eauto.
      * rewrite list_lookup_alter_ne by done. eauto.
  - destruct (opt_truthy u) eqn:Htruthy; [|done].
    apply bind_fresh_wf; [done..|]. apply NoDup_singleton.
Qed.

Lemma store_data_falsy : opt_truthy u = false → st' = st.
Proof using Hauth Hkey Hvalue Hwf.
  intros Hfalsy. rewrite store_data_state_eq.
  destruct (user_data_stores st !! u) as [l|] eqn:Hu.
  - rewrite (wf_truthy _ Hwf _ _ Hu) in Hfalsy. done.
  - by rewrite Hfalsy.
Qed.

Lemma store_data_table :
  opt_truthy u = true →
  table_of st' u = Some (dict_set key value (user_table st u)).
Proof using Hauth Hkey Hvalue Hwf.
  intros Htruthy. rewrite store_data_state_eq. unfold user_table.
  destruct (user_data_stores st !! u) as [l|] eqn:Hu.
  - unfold table_of. cbn [user_data_stores heap].
    rewrite Hu. cbn [mbind option_bind]. rewrite list_lookup_alter_eq.
    destruct (lookup_lt_is_Some_2 (heap st) l) as [d Hd];
      [by eapply wf_bound|].
    by rewrite Hd.
  - rewrite Htruthy, bind_fresh_table. unfold table_of. by rewrite Hu.
Qed.

Lemma store_data_other u' : u' ≠ u → table_of st' u' = table_of st u'.
Proof using Hauth Hkey Hvalue Hwf.
  intros Hne. rewrite store_data_state_eq. unfold table_of.
  destruct (user_data_stores st !! u) as [l|] eqn:Hu;
    cbn [user_data_stores heap].
  - destruct (user_data_stores st !! u') as [l'|] eqn:Hu';
      cbn [mbind option_bind]; [|done].
    apply list_lookup_alter_ne. intros ->.
    apply Hne. by eapply wf_separate.
  - destruct (opt_truthy u); [|done]. by apply bind_fresh_other.
Qed.
End store_effect.

(** ** Runs: the invariant holds in every reachable state *)

Lemma create_server_state u k c st :
  (create_server u k c st).2 =
  if opt_truthy u && bool_decide (user_data_stores st !! u = None)
  then State (heap st ++ [[]]) (<[u:=length (heap st)]> (user_data_stores st))
  else st.
Proof.
  unfold create_server. destruct (opt_truthy u); [|done].
  unfold bind, user_data_stores_lacks, user_data_stores_setitem, ret.
  by case_bool_decide.
Qed.

Lemma create_server_wf u k c st :
  state_wf st → state_wf (create_server u k c st).2.
Proof.
  intros Hwf. rewrite create_server_state.
  destruct (opt_truthy u) eqn:Htruthy; [|done].
  case_bool_decide; [|done]. simpl.
  apply bind_fresh_wf; [done..|]. apply NoDup_nil_2.
Qed.

Lemma handle_call_tool_wf h server name arguments st :
  state_wf st → state_wf (handle_call_tool h server name arguments st).2.
Proof.
  intros Hwf.
  destruct (handle_call_tool_cases h server name arguments st)
    as [->|(Hauth & -> & key & value & Hkey & Hvalue)]; [done|].
  by eapply store_data_wf.
Qed.

Lemma step_wf st ev : state_wf st → state_wf (step st ev).
Proof.
  destruct ev; simpl; [apply create_server_wf | apply handle_call_tool_wf].
Qed.

Lemma run_wf tr st : state_wf st → state_wf (run tr st).
Proof.
  unfold run. revert st.
  induction tr as [|ev tr IH]; intros st Hwf; simpl; [done|].
  by apply IH, step_wf.
Qed.

Lemma reachable_wf st : reachable st → state_wf st.
Proof. intros [tr ->]. apply run_wf, init_state_wf. Qed.

Lemma reachable_run tr st : reachable st → reachable (run tr st).
Proof.
  intros [tr0 ->]. exists (tr0 ++ tr). unfold run. by rewrite foldl_app.
Qed.

(** ** Frame: an event touches the table of its own user only *)

Lemma step_other st ev u' :
  state_wf st → event_user ev ≠ u' → table_of (step st ev) u' = table_of st u'.
Proof.
  intros Hwf Hne. destruct ev as [u k c|h server name arguments]; simpl in *.
  - rewrite create_server_state.
    destruct (opt_truthy u && _); [|done]. by apply bind_fresh_other.
  - destruct (handle_call_tool_cases h server name arguments st)
      as [->|(Hauth & -> & key & value & Hkey & Hvalue)]; [done|].
    by eapply store_data_other.
Qed.

Lemma run_other tr st u' :
  state_wf st → Forall (λ ev, event_user ev ≠ u') tr →
  table_of (run tr st) u' = table_of st u'.
Proof.
  unfold run. intros Hwf Hall. revert st Hwf.
  induction Hall as [|ev tr Hev Hall IH]; intros st Hwf; simpl; [done|].
  rewrite IH by by apply step_wf. by apply step_other.
Qed.

(** What a call returns is a function of its user's table alone. *)
Lemma handle_call_tool_reads_own h server name arguments st1 st2 :
  user_table st1 (user_id server) = user_table st2 (user_id server) →
  (handle_call_tool h server name arguments st1).1
  = (handle_call_tool h server name arguments st2).1.
Proof.
  intros Htable. destruct (authenticated h server) eqn:Hauth.
  - destruct (String.eqb_spec name "store_data") as [->|Hstore];
      [by rewrite !store_data_outcome|].
    destruct (String.eqb_spec name "retrieve_data") as [->|Hretrieve];
      [by rewrite !retrieve_data_outcome, Htable|].
    destruct (String.eqb_spec name "list_data") as [->|Hlist];
      [by rewrite !list_data_spec, Htable|].
    by rewrite !unknown_tool_spec.
  - apply authenticated_false in Hauth.
    unfold handle_call_tool. by rewrite Hauth.
Qed.

(** ** Well-formed requests *)

Lemma store_data_args_key key value :
  arguments_get (store_data_args key value) "key" = Some key.
Proof. unfold store_data_args. simpl. apply lookup_insert_eq. Qed.

Lemma store_data_args_value key value :
  arguments_get (store_data_args key value) "value" = Some value.
Proof.
  unfold store_data_args. simpl.
  rewrite lookup_insert_ne by done. apply lookup_singleton_eq.
Qed.

Lemma retrieve_data_args_key key :
  arguments_get (retrieve_data_args key) "key" = Some key.
Proof. unfold retrieve_data_args. simpl. apply lookup_singleton_eq. Qed.

Lemma truthy_str_nonempty o s : o = Some s → s ≠ "" → truthy_str o = Some s.
Proof. intros. by apply truthy_str_Some. Qed.

(** [user_table] after a store by a truthy user. *)
Lemma store_data_user_table h server key value st :
  authenticated h server = true → key ≠ "" → value ≠ "" → state_wf st →
  opt_truthy (user_id server) = true →
  user_table
    (handle_call_tool h server "store_data" (store_data_args key value) st).2
    (user_id server)
  = dict_set key value (user_table st (user_id server)).
Proof.
  intros Hauth Hk Hv Hwf Htruthy. unfold user_table at 1.
  erewrite store_data_table; [done..| | |done|done].
  - apply truthy_str_nonempty; [apply store_data_args_key | done].
  - apply truthy_str_nonempty; [apply store_data_args_value | done].
Qed.

(** * The claims *)

(** C1, as amended: for a server whose user identifier is non-empty, and
    every non-empty key and value, when authentication succeeds for both
    calls, [store_data(key, value)] followed by [retrieve_data(key)]
    returns a success record whose [value] field is the stored value. *)
Theorem store_retrieve_roundtrip h1 h2 server key value st :
  reachable st →
  opt_truthy (user_id server) = true →
  key ≠ "" → value ≠ "" →
  authenticated h1 server = true → authenticated h2 server = true →
  store_then_retrieve h1 h2 server key value st
  ∧ json_field "status" (retrieve_success_result h2 key value)
    = Some (JStr "success")
  ∧ json_field "value" (retrieve_success_result h2 key value)
    = Some (JStr value).
Proof.
  intros Hreach%reachable_wf Htruthy Hk Hv Hauth1 Hauth2.
  split; [|done]. unfold store_then_retrieve, returns_record.
  erewrite retrieve_data_spec; [|done|];
    [|apply truthy_str_nonempty; [apply retrieve_data_args_key | done]].
  rewrite store_data_user_table by done.
  by rewrite dict_get_set_eq.
Qed.

Lemma store_retrieve_roundtrip_witness :
  store_then_retrieve ok_host ok_host local_server "test_key" "test_value"
    init_state
  ∧ json_field "status"
      (retrieve_success_result ok_host "test_key" "test_value")
    = Some (JStr "success")
  ∧ json_field "value"
      (retrieve_success_result ok_host "test_key" "test_value")
    = Some (JStr "test_value").
Proof.
  apply (store_retrieve_roundtrip ok_host ok_host local_server
           "test_key" "test_value" init_state).
  - by exists [].
  - reflexivity.
  - discriminate.
  - discriminate.
  - vm_compute. reflexivity.
  - vm_compute. reflexivity.
Defined.

(** C1 as stated fails for a server whose user identifier is the empty
    string: both calls are authenticated, the store reports success, and
    the retrieve reports [not_found]. *)
Lemma store_retrieve_empty_user :
  authenticated ok_host empty_user_server = true
  ∧ returns_record
      (handle_call_tool ok_host empty_user_server "retrieve_data"
         (retrieve_data_args "test_key")
         (handle_call_tool ok_host empty_user_server "store_data"
            (store_data_args "test_key" "test_value") init_state).2).1
      (retrieve_not_found_result ok_host "test_key")
  ∧ ¬ store_then_retrieve ok_host ok_host empty_user_server
        "test_key" "test_value" init_state.
Proof.
  split_and!.
  - vm_compute. reflexivity.
  - vm_compute. reflexivity.
  - unfold store_then_retrieve, returns_record. vm_compute. discriminate.
Qed.

(** C2: when the credential lookup fails (no credentials, or credentials
    with an empty [api_key]), a call to any tool returns one text block
    with an [Authentication error] message instead of raising, and the
    state, hence every user's table, is unchanged. *)
Theorem auth_failure_short_circuits h server name arguments st :
  lookup_fails (credentials_for h server) →
  handle_call_tool h server name arguments st
  = (Return [text_content
       ("Authentication error: "
        +:+ exn_message (handle_missing_credentials h (user_id server)))],
     st).
Proof.
  intros Hfail%lookup_fails_iff%authenticated_false.
  unfold handle_call_tool. by rewrite Hfail.
Qed.

Lemma auth_failure_short_circuits_witness :
  lookup_fails (credentials_for no_creds_host local_server)
  ∧ handle_call_tool no_creds_host local_server "store_data"
      (store_data_args "test_key" "test_value") init_state
    = (Return [text_content
         ("Authentication error: Simple Tools API key not found for user "
          +:+ "local. Please run authentication first.")],
       init_state).
Proof.
  split.
  - left. reflexivity.
  - apply (auth_failure_short_circuits no_creds_host local_server
             "store_data" (store_data_args "test_key" "test_value")
             init_state).
    left. reflexivity.
Defined.

(** A key stays absent from a user's table as long as no [store_data]
    call of that user names it. *)
Lemma step_absent st ev u key :
  state_wf st → ¬ stores_key u key ev →
  dict_get key (user_table st u) = None →
  dict_get key (user_table (step st ev) u) = None.
Proof.
  intros Hwf Hev Habs.
  destruct (decide (event_user ev = u)) as [Hu|Hu];
    [|unfold user_table; by rewrite step_other].
  destruct ev as [u0 k c|h server name arguments]; simpl in *.
  - subst u0. rewrite create_server_state.
    destruct (opt_truthy u && _); [|done].
    unfold user_table. by rewrite bind_fresh_table.
  - subst u.
    destruct (handle_call_tool_cases h server name arguments st)
      as [->|(Hauth & -> & key' & value' & Hkey & Hvalue)]; [done|].
    destruct (opt_truthy (user_id server)) eqn:Htruthy.
    + unfold user_table at 1. erewrite store_data_table by done. simpl.
      rewrite dict_get_set_ne; [done|].
      intros ->. apply Hev. split_and!; [done..|].
      by apply truthy_str_Some in Hkey as [? _].
    + by erewrite store_data_falsy.
Qed.

Lemma run_absent tr st u key :
  state_wf st → Forall (λ ev, ¬ stores_key u key ev) tr →
  dict_get key (user_table st u) = None →
  dict_get key (user_table (run tr st) u) = None.
Proof.
  unfold run. intros Hwf Hall. revert st Hwf.
  induction Hall as [|ev tr Hev Hall IH]; intros st Hwf Habs; simpl; [done|].
  apply IH; [by apply step_wf | by apply step_absent].
Qed.

(** C3: for an authenticated call and a non-empty key that no
    [store_data] call of that user has named since the process started,
    [retrieve_data(key)] returns the [not_found] record; it does not
    raise and leaves the state as it was. *)
Theorem retrieve_never_stored tr h server key :
  authenticated h server = true →
  key ≠ "" →
  Forall (λ ev, ¬ stores_key (user_id server) key ev) tr →
  handle_call_tool h server "retrieve_data" (retrieve_data_args key)
    (run tr init_state)
  = (Return [text_content (json_dumps (retrieve_not_found_result h key))],
     run tr init_state)
  ∧ json_field "status" (retrieve_not_found_result h key)
    = Some (JStr "not_found").
Proof.
  intros Hauth Hk Hall. split; [|done].
  erewrite retrieve_data_spec; [|done|];
    [|apply truthy_str_nonempty; [apply retrieve_data_args_key | done]].
  by rewrite run_absent; [| apply init_state_wf | |].
Qed.

Lemma retrieve_never_stored_witness :
  handle_call_tool ok_host local_server "retrieve_data"
    (retrieve_data_args "nonexistent_key")
    (run [CreateServer (Some "local") None None;
          CallTool ok_host local_server "store_data"
            (store_data_args "test_key" "test_value");
          CallTool ok_host other_server "store_data"
            (store_data_args "nonexistent_key" "another_value")]
       init_state)
  = (Return [text_content
       (json_dumps (retrieve_not_found_result ok_host "nonexistent_key"))],
     run [CreateServer (Some "local") None None;
          CallTool ok_host local_server "store_data"
            (store_data_args "test_key" "test_value");
          CallTool ok_host other_server "store_data"
            (store_data_args "nonexistent_key" "another_value")]
       init_state)
  ∧ json_field "status"
      (retrieve_not_found_result ok_host "nonexistent_key")
    = Some (JStr "not_found").
Proof.
  apply (retrieve_never_stored
           [CreateServer (Some "local") None None;
            CallTool ok_host local_server "store_data"
              (store_data_args "test_key" "test_value");
            CallTool ok_host other_server "store_data"
              (store_data_args "nonexistent_key" "another_value")]
           ok_host local_server "nonexistent_key").
  - vm_compute. reflexivity.
  - discriminate.
  - repeat constructor.
    + intros [].
    + intros (_ & _ & H). vm_compute in H. discriminate.
    + intros (H & _). discriminate.
Defined.

(** ** Listing *)

Lemma foldl_dict_set_fresh (kvs d : dict) :
  NoDup (d.*1 ++ kvs.*1) →
  foldl (λ d kv, dict_set kv.1 kv.2 d) d kvs = d ++ kvs.
Proof.
  revert d. induction kvs as [|[k v] kvs IH]; intros d Hnodup; simpl.
  - by rewrite app_nil_r.
  - rewrite fmap_cons in Hnodup. simpl in Hnodup.
    rewrite dict_set_fresh.
    + rewrite IH; [by rewrite <- app_assoc|].
      by rewrite fmap_app, <- app_assoc.
    + apply NoDup_app in Hnodup as (_ & Hdisj & _).
      intros Hin. apply (Hdisj k Hin). left.
Qed.

Lemma store_calls_user_table server reqs st :
  state_wf st →
  opt_truthy (user_id server) = true →
  Forall (λ r, authenticated r.1 server = true ∧ r.2.1 ≠ "" ∧ r.2.2 ≠ "")
    reqs →
  user_table (run (store_calls server reqs) st) (user_id server)
  = foldl (λ d kv, dict_set kv.1 kv.2 d) (user_table st (user_id server))
      reqs.*2.
Proof.
  unfold run. intros Hwf Htruthy Hall. revert st Hwf.
  induction Hall as [|[h [k v]] reqs (Hauth & Hk & Hv) Hall IH];
    intros st Hwf; simpl in *; [done|].
  rewrite IH by by apply handle_call_tool_wf.
  by rewrite store_data_user_table.
Qed.

(** C4, as amended: an authenticated [list_data] for a user with no
    stored keys returns the [empty] record with [count] 0 and empty
    [data]; for a server whose user identifier is non-empty, after
    authenticated [store_data] calls for N >= 1 distinct non-empty keys
    with non-empty values, [list_data] returns the [success] record with
    [count] N and [data] holding exactly the stored entries. *)
Theorem list_data_counts h server arguments st :
  authenticated h server = true →
  user_table st (user_id server) = [] →
  (returns_record (handle_call_tool h server "list_data" arguments st).1
     (list_empty_result h)
   ∧ json_field "status" (list_empty_result h) = Some (JStr "empty")
   ∧ json_field "count" (list_empty_result h) = Some (JInt 0)
   ∧ json_field "data" (list_empty_result h) = Some (JDict []))
  ∧ ∀ reqs : list (host * (string * string)),
      reachable st →
      opt_truthy (user_id server) = true →
      reqs ≠ [] →
      Forall (λ r, authenticated r.1 server = true ∧ r.2.1 ≠ "" ∧ r.2.2 ≠ "")
        reqs →
      NoDup reqs.*2.*1 →
      list_after_stores h server reqs arguments st
      ∧ json_field "status" (list_success_result h reqs.*2)
        = Some (JStr "success")
      ∧ json_field "count" (list_success_result h reqs.*2)
        = Some (JInt (Z.of_nat (length reqs)))
      ∧ json_field "data" (list_success_result h reqs.*2)
        = Some (JDict reqs.*2).
Proof.
  intros Hauth Hempty. split.
  - split; [|done]. unfold returns_record.
    rewrite list_data_spec by done. by rewrite Hempty.
  - intros reqs Hreach%reachable_wf Htruthy Hne Hall Hnodup.
    split_and!; [|done|simpl; by rewrite length_fmap|done].
    unfold list_after_stores, returns_record.
    rewrite list_data_spec by done.
    rewrite store_calls_user_table, Hempty by done.
    rewrite foldl_dict_set_fresh by done. simpl.
    by destruct reqs.
Qed.

Lemma list_data_counts_witness :
  (returns_record
     (handle_call_tool ok_host local_server "list_data" None init_state).1
     (list_empty_result ok_host)
   ∧ json_field "status" (list_empty_result ok_host) = Some (JStr "empty")
   ∧ json_field "count" (list_empty_result ok_host) = Some (JInt 0)
   ∧ json_field "data" (list_empty_result ok_host) = Some (JDict []))
  ∧ list_after_stores ok_host local_server
      [(ok_host, ("test_key", "test_value"));
       (ok_host, ("another_key", "another_value"))] None init_state
  ∧ json_field "count"
      (list_success_result ok_host
         [("test_key", "test_value"); ("another_key", "another_value")])
    = Some (JInt 2).
Proof.
  destruct (list_data_counts ok_host local_server None init_state)
    as [Hempty Hstored].
  - vm_compute. reflexivity.
  - reflexivity.
  - split; [exact Hempty|].
    destruct (Hstored [(ok_host, ("test_key", "test_value"));
                       (ok_host, ("another_key", "another_value"))])
      as (Hlist & _ & Hcount & _).
    + by exists [].
    + reflexivity.
    + discriminate.
    + repeat constructor; first [vm_compute; reflexivity | discriminate].
    + apply (bool_decide_unpack _). vm_compute. exact I.
    + split; [exact Hlist | exact Hcount].
Defined.

(** C4 as stated fails for a server whose user identifier is the empty
    string: after one authenticated [store_data], [list_data] still
    returns the [empty] record. *)
Lemma list_data_empty_user :
  authenticated ok_host empty_user_server = true
  ∧ returns_record
      (handle_call_tool ok_host empty_user_server "list_data" None
         (run (store_calls empty_user_server
                 [(ok_host, ("test_key", "test_value"))]) init_state)).1
      (list_empty_result ok_host)
  ∧ ¬ list_after_stores ok_host empty_user_server
        [(ok_host, ("test_key", "test_value"))] None init_state.
Proof.
  split_and!.
  - vm_compute. reflexivity.
  - vm_compute. reflexivity.
  - unfold list_after_stores, returns_record. vm_compute. discriminate.
Qed.

(** ** Isolation between users *)

(** A bound user has a table: in a well-formed state the table of [u] is
    missing exactly when [u] is not bound. *)
Lemma table_of_None st u :
  state_wf st → table_of st u = None ↔ user_data_stores st !! u = None.
Proof.
  intros Hwf. unfold table_of.
  destruct (user_data_stores st !! u) as [l|] eqn:Hu; simpl; [|done].
  destruct (lookup_lt_is_Some_2 (heap st) l) as [d Hd];
    [by eapply wf_bound|].
  by rewrite Hd.
Qed.

(** What an event of [B] does to [B]'s table is a function of [B]'s table
    alone: it reads no other user's table. *)
Lemma create_server_own_table u k c st1 st2 :
  state_wf st1 → state_wf st2 →
  table_of st1 u = table_of st2 u →
  table_of (create_server u k c st1).2 u
  = table_of (create_server u k c st2).2 u.
Proof.
  intros Hwf1 Hwf2 Htable. rewrite !create_server_state.
  destruct (opt_truthy u); simpl; [|done].
  destruct (table_of st1 u) as [d|] eqn:H1.
  - assert (user_data_stores st1 !! u ≠ None) as Hb1.
    { intros Hn. apply table_of_None in Hn; [congruence|done]. }
    assert (user_data_stores st2 !! u ≠ None) as Hb2.
    { intros Hn. apply table_of_None in Hn; [congruence|done]. }
    rewrite !bool_decide_eq_false_2 by done. congruence.
  - symmetry in Htable.
    apply table_of_None in H1; [|done].
    apply table_of_None in Htable; [|done].
    rewrite !bool_decide_eq_true_2 by done.
    by rewrite !bind_fresh_table.
Qed.

Lemma handle_call_tool_own_table h server name arguments st1 st2 :
  state_wf st1 → state_wf st2 →
  table_of st1 (user_id server) = table_of st2 (user_id server) →
  table_of (handle_call_tool h server name arguments st1).2 (user_id server)
  = table_of (handle_call_tool h server name arguments st2).2 (user_id server).
Proof.
  intros Hwf1 Hwf2 Htable.
  assert ((authenticated h server = true ∧ name = "store_data" ∧
           ∃ key value,
             truthy_str (arguments_get arguments "key") = Some key ∧
             truthy_str (arguments_get arguments "value") = Some value)
          ∨ ((handle_call_tool h server name arguments st1).2 = st1
             ∧ (handle_call_tool h server name arguments st2).2 = st2))
    as [(Hauth & -> & key & value & Hkey & Hvalue)|[-> ->]]; [| |done].
  { destruct (handle_call_tool_cases h server name arguments st1)
      as [E1|?]; [|by left].
    destruct (handle_call_tool_cases h server name arguments st2)
      as [E2|?]; [by right|by left]. }
  destruct (opt_truthy (user_id server)) eqn:Htruthy.
  - erewrite !store_data_table by done. unfold user_table. by rewrite Htable.
  - by erewrite !store_data_falsy.
Qed.

Lemma step_own_table st1 st2 ev :
  state_wf st1 → state_wf st2 →
  table_of st1 (event_user ev) = table_of st2 (event_user ev) →
  table_of (step st1 ev) (event_user ev)
  = table_of (step st2 ev) (event_user ev).
Proof.
  destruct ev as [u k c|h server name arguments]; simpl.
  - apply create_server_own_table.
  - apply handle_call_tool_own_table.
Qed.

(** Non-interference over runs: [B]'s table after a run is its table
    after the events of [B] alone. *)
Lemma run_own_events tr B st1 st2 :
  state_wf st1 → state_wf st2 →
  table_of st1 B = table_of st2 B →
  table_of (run tr st1) B = table_of (run (own_events B tr) st2) B.
Proof.
  unfold run, own_events. revert st1 st2.
  induction tr as [|ev tr IH]; intros st1 st2 Hwf1 Hwf2 Htable; [done|].
  simpl. rewrite filter_cons. case_decide as Hev; simpl.
  - subst B. apply IH; [by apply step_wf..|]. by apply step_own_table.
  - apply IH; [by apply step_wf|done|]. by rewrite step_other.
Qed.

(** C5: each user's table is isolated. For every user B:
    - whatever the interleaving of events since the process started, B's
      table, and what any call made as B returns, are what they would be
      had the events of B alone taken place: nothing any other user
      stored, created or called is visible to B;
    - from any reachable state, events on behalf of other users leave
      B's table and the results of B's calls untouched (no operation
      writes another user's table);
    - an event of B, run in two reachable states that agree on B's
      table, leaves B with the same table in both, and a call of B
      returns the same in both (no operation reads another user's
      table). *)
Theorem user_isolation B :
  (∀ tr,
     table_of (run tr init_state) B
     = table_of (run (own_events B tr) init_state) B
     ∧ ∀ h server name arguments,
         user_id server = B →
         (handle_call_tool h server name arguments (run tr init_state)).1
         = (handle_call_tool h server name arguments
              (run (own_events B tr) init_state)).1)
  ∧ (∀ st tr,
       reachable st →
       Forall (λ ev, event_user ev ≠ B) tr →
       table_of (run tr st) B = table_of st B
       ∧ ∀ h server name arguments,
           user_id server = B →
           (handle_call_tool h server name arguments (run tr st)).1
           = (handle_call_tool h server name arguments st).1)
  ∧ (∀ st1 st2,
       reachable st1 → reachable st2 →
       table_of st1 B = table_of st2 B →
       (∀ ev, event_user ev = B →
              table_of (step st1 ev) B = table_of (step st2 ev) B)
       ∧ ∀ h server name arguments,
           user_id server = B →
           (handle_call_tool h server name arguments st1).1
           = (handle_call_tool h server name arguments st2).1).
Proof.
  split_and!.
  - intros tr.
    assert (table_of (run tr init_state) B
            = table_of (run (own_events B tr) init_state) B) as Htable
      by (apply run_own_events; [apply init_state_wf..|done]).
    split; [done|]. intros h server name arguments <-.
    apply handle_call_tool_reads_own. unfold user_table. by rewrite Htable.
  - intros st tr Hwf%reachable_wf Hall.
    assert (table_of (run tr st) B = table_of st B) as Htable
      by by apply run_other.
    split; [done|]. intros h server name arguments <-.
    apply handle_call_tool_reads_own. unfold user_table. by rewrite Htable.
  - intros st1 st2 Hwf1%reachable_wf Hwf2%reachable_wf Htable. split.
    + intros ev <-. by apply step_own_table.
    + intros h server name arguments <-.
      apply handle_call_tool_reads_own. unfold user_table. by rewrite Htable.
Qed.

(** An interleaved run: [local] stores a key, [other] stores one of its
    own; what [other] sees is what it sees after its own events alone,
    and [retrieve_data] of [local]'s key as [other] reports [not_found]. *)
Lemma user_isolation_witness :
  (table_of
     (run [CreateServer (Some "local") None None;
           CreateServer (Some "other") None None;
           CallTool ok_host local_server "store_data"
             (store_data_args "test_key" "test_value");
           CallTool ok_host other_server "store_data"
             (store_data_args "another_key" "another_value")] init_state)
     (Some "other")
   = table_of
       (run (own_events (Some "other")
               [CreateServer (Some "local") None None;
                CreateServer (Some "other") None None;
                CallTool ok_host local_server "store_data"
                  (store_data_args "test_key" "test_value");
                CallTool ok_host other_server "store_data"
                  (store_data_args "another_key" "another_value")])
          init_state)
       (Some "other"))
  ∧ (handle_call_tool ok_host other_server "retrieve_data"
       (retrieve_data_args "test_key")
       (run [CreateServer (Some "local") None None;
             CreateServer (Some "other") None None;
             CallTool ok_host local_server "store_data"
               (store_data_args "test_key" "test_value");
             CallTool ok_host other_server "store_data"
               (store_data_args "another_key" "another_value")]
          init_state)).1
    = Return [text_content
        (json_dumps (retrieve_not_found_result ok_host "test_key"))].
Proof.
  destruct (user_isolation (Some "other")) as (Hpurge & _ & _).
  destruct (Hpurge
              [CreateServer (Some "local") None None;
               CreateServer (Some "other") None None;
               CallTool ok_host local_server "store_data"
                 (store_data_args "test_key" "test_value");
               CallTool ok_host other_server "store_data"
                 (store_data_args "another_key" "another_value")])
    as [Htable Hcalls].
  split.
  - exact Htable.
  - rewrite (Hcalls ok_host other_server "retrieve_data"
               (retrieve_data_args "test_key")) by reflexivity.
    vm_compute. reflexivity.
Defined.

(** ** Overwriting *)

Lemma user_table_wf st u : state_wf st → dict_wf (user_table st u).
Proof.
  intros Hwf. unfold user_table, table_of.
  destruct (user_data_stores st !! u) as [l|]; simpl; [|apply NoDup_nil_2].
  destruct (heap st !! l) as [d|] eqn:Hl; simpl; [|apply NoDup_nil_2].
  by eapply wf_dicts.
Qed.

(** C6, as amended: for a server whose user identifier is non-empty,
    storing one key twice, with [v1] and then [v2], overwrites the entry:
    an authenticated [retrieve_data] of the key returns [v2], and the
    user's table holds a single entry for the key. *)
Theorem store_overwrites h1 h2 h3 server key v1 v2 st :
  reachable st →
  opt_truthy (user_id server) = true →
  key ≠ "" → v1 ≠ "" → v2 ≠ "" →
  authenticated h1 server = true →
  authenticated h2 server = true →
  authenticated h3 server = true →
  overwrite_then_retrieve h1 h2 h3 server key v1 v2 st.
Proof.
  intros Hwf%reachable_wf Htruthy Hk Hv1 Hv2 Hauth1 Hauth2 Hauth3.
  unfold overwrite_then_retrieve, returns_record, run. simpl.
  pose proof (handle_call_tool_wf h1 server "store_data"
                (store_data_args key v1) st Hwf) as Hwf1.
  rewrite !store_data_user_table by done. split.
  - erewrite retrieve_data_spec; [|done|];
      [|apply truthy_str_nonempty; [apply retrieve_data_args_key | done]].
    rewrite !store_data_user_table by done.
    by rewrite dict_get_set_eq.
  - apply dict_set_single, dict_set_wf, user_table_wf, Hwf.
Qed.

Lemma store_overwrites_witness :
  overwrite_then_retrieve ok_host ok_host ok_host local_server
    "test_key" "test_value" "another_value"
    (run [CreateServer (Some "local") None None] init_state).
Proof.
  apply (store_overwrites ok_host ok_host ok_host local_server
           "test_key" "test_value" "another_value"
           (run [CreateServer (Some "local") None None] init_state)).
  - apply reachable_run. by exists [].
  - reflexivity.
  - discriminate.
  - discriminate.
  - discriminate.
  - vm_compute. reflexivity.
  - vm_compute. reflexivity.
  - vm_compute. reflexivity.
Defined.

(** C6 as stated fails for a server whose user identifier is the empty
    string: after two authenticated stores of one key the retrieve still
    reports [not_found]. *)
Lemma store_overwrites_empty_user :
  authenticated ok_host empty_user_server = true
  ∧ returns_record
      (handle_call_tool ok_host empty_user_server "retrieve_data"
         (retrieve_data_args "test_key")
         (run [CallTool ok_host empty_user_server "store_data"
                 (store_data_args "test_key" "test_value");
               CallTool ok_host empty_user_server "store_data"
                 (store_data_args "test_key" "another_value")]
            init_state)).1
      (retrieve_not_found_result ok_host "test_key")
  ∧ ¬ overwrite_then_retrieve ok_host ok_host ok_host empty_user_server
        "test_key" "test_value" "another_value" init_state.
Proof.
  split_and!.
  - vm_compute. reflexivity.
  - vm_compute. reflexivity.
  - unfold overwrite_then_retrieve, returns_record. intros [Hret _].
    vm_compute in Hret. discriminate.
Qed.

(** ** Faults *)

(** C7, as amended: once authentication has succeeded, a tool name other
    than [store_data], [retrieve_data] and [list_data] makes the handler
    raise [ValueError("Unknown tool: <name>")] out of the dispatch, with
    the state unchanged. *)
Theorem unknown_tool_raises h server name arguments st :
  authenticated h server = true →
  name ≠ "store_data" → name ≠ "retrieve_data" → name ≠ "list_data" →
  raises_unknown_tool h server name arguments st
  ∧ (handle_call_tool h server name arguments st).2 = st.
Proof.
  intros Hauth H1 H2 H3. unfold raises_unknown_tool.
  by rewrite unknown_tool_spec.
Qed.

Lemma unknown_tool_raises_witness :
  raises_unknown_tool ok_host local_server "delete_data" None init_state
  ∧ (handle_call_tool ok_host local_server "delete_data" None init_state).2
    = init_state.
Proof.
  apply (unknown_tool_raises ok_host local_server "delete_data" None
           init_state).
  - vm_compute. reflexivity.
  - discriminate.
  - discriminate.
  - discriminate.
Defined.

(** C7 as stated fails when the credential lookup fails: the unknown tool
    name is answered with the authentication error text, not a fault. *)
Lemma unknown_tool_unauthenticated :
  (handle_call_tool no_creds_host local_server "delete_data" None
     init_state).1
  = Return [text_content
      ("Authentication error: Simple Tools API key not found for user "
       +:+ "local. Please run authentication first.")]
  ∧ ¬ raises_unknown_tool no_creds_host local_server "delete_data" None
        init_state.
Proof.
  split.
  - vm_compute. reflexivity.
  - unfold raises_unknown_tool. vm_compute. discriminate.
Qed.

(** C8: given that authentication succeeds, [store_data] raises an
    invalid-argument fault exactly when [key] or [value] is missing or
    empty, and [retrieve_data] exactly when [key] is missing or empty; in
    every other case the call returns a result record and does not
    raise. *)
Theorem invalid_argument_exactly h server arguments st :
  authenticated h server = true →
  (raises_invalid_argument
     (handle_call_tool h server "store_data" arguments st).1
   ↔ missing_or_empty arguments "key" ∨ missing_or_empty arguments "value")
  ∧ (raises_invalid_argument
       (handle_call_tool h server "retrieve_data" arguments st).1
     ↔ missing_or_empty arguments "key")
  ∧ (¬ (missing_or_empty arguments "key"
        ∨ missing_or_empty arguments "value") →
     ∃ r, returns_record
            (handle_call_tool h server "store_data" arguments st).1 r)
  ∧ (¬ missing_or_empty arguments "key" →
     ∃ r, returns_record
            (handle_call_tool h server "retrieve_data" arguments st).1 r).
Proof.
  intros Hauth. unfold raises_invalid_argument, invalid_argument,
    returns_record.
  rewrite store_data_outcome, retrieve_data_outcome by done.
  rewrite <- !truthy_str_None.
  destruct (arguments_truthy arguments) eqn:Hargs; simpl.
  - destruct (truthy_str (arguments_get arguments "key")) as [key|];
      [destruct (truthy_str (arguments_get arguments "value")) as [value|]|].
    + split_and!; [| |eauto..]; split; try done;
        [intros (e & [=] & _) | intros [[=]|[=]] | intros (e & [=] & _)].
    + split_and!; [| |intros []; eauto|eauto]; split; eauto 6.
      * intros (e & [=] & _).
      * done.
    + split_and!; [| |intros []; eauto|done]; split; eauto 6.
  - rewrite !(arguments_falsy_get _ _ Hargs). simpl.
    split_and!; [| |intros []; eauto|done]; split; eauto 6.
Qed.

Lemma invalid_argument_exactly_witness :
  (raises_invalid_argument
     (handle_call_tool ok_host local_server "store_data"
        (Some {["key" := "test_key"]}) init_state).1
   ↔ missing_or_empty (Some {["key" := "test_key"]}) "key"
     ∨ missing_or_empty (Some {["key" := "test_key"]}) "value")
  ∧ (raises_invalid_argument
       (handle_call_tool ok_host local_server "retrieve_data"
          (Some {["key" := "test_key"]}) init_state).1
     ↔ missing_or_empty (Some {["key" := "test_key"]}) "key")
  ∧ (¬ (missing_or_empty (Some {["key" := "test_key"]}) "key"
        ∨ missing_or_empty (Some {["key" := "test_key"]}) "value") →
     ∃ r, returns_record
            (handle_call_tool ok_host local_server "store_data"
               (Some {["key" := "test_key"]}) init_state).1 r)
  ∧ (¬ missing_or_empty (Some {["key" := "test_key"]}) "key" →
     ∃ r, returns_record
            (handle_call_tool ok_host local_server "retrieve_data"
               (Some {["key" := "test_key"]}) init_state).1 r).
Proof.
  apply (invalid_argument_exactly ok_host local_server
           (Some {["key" := "test_key"]}) init_state).
  vm_compute. reflexivity.
Defined.

(** ** Frame *)

(** C9: [retrieve_data] and [list_data] leave the state, the heap of
    dict objects together with [user_data_stores], exactly as it was, for
    every host answer, server, argument object and state; a call that
    changes the state is a [store_data] call. *)
Theorem reads_leave_state h server arguments st :
  (handle_call_tool h server "retrieve_data" arguments st).2 = st
  ∧ (handle_call_tool h server "list_data" arguments st).2 = st
  ∧ ∀ name,
      (handle_call_tool h server name arguments st).2 ≠ st →
      name = "store_data".
Proof.
  split_and!.
  - by destruct (handle_call_tool_cases h server "retrieve_data" arguments st)
      as [?|(_ & [=] & _)].
  - by destruct (handle_call_tool_cases h server "list_data" arguments st)
      as [?|(_ & [=] & _)].
  - intros name Hchanged.
    by destruct (handle_call_tool_cases h server name arguments st)
      as [?|(_ & ? & _)].
Qed.

(** ** Servers without a user *)

(** C10, as amended: when the server's user identifier is [None] or the
    empty string and authentication succeeds for both calls, [store_data]
    with a non-empty key and value returns the [success] record but saves
    nothing (the state is unchanged), and a following [retrieve_data] of
    the key returns [not_found]. *)
Theorem falsy_user_store_is_lost h1 h2 server key value st :
  reachable st →
  user_id server = None ∨ user_id server = Some "" →
  key ≠ "" → value ≠ "" →
  authenticated h1 server = true → authenticated h2 server = true →
  unsaved_store h1 h2 server key value st
  ∧ json_field "status" (store_result h1 key value) = Some (JStr "success")
  ∧ json_field "status" (retrieve_not_found_result h2 key)
    = Some (JStr "not_found").
Proof.
  intros Hreach Hfalsy Hk Hv Hauth1 Hauth2. split; [|done].
  assert (opt_truthy (user_id server) = false) as Hfalse
    by by destruct Hfalsy as [-> | ->].
  pose proof (reachable_wf _ Hreach) as Hwf.
  assert (truthy_str (arguments_get (store_data_args key value) "key")
          = Some key) as Hkey
    by (apply truthy_str_nonempty; [apply store_data_args_key | done]).
  assert (truthy_str (arguments_get (store_data_args key value) "value")
          = Some value) as Hvalue
    by (apply truthy_str_nonempty; [apply store_data_args_value | done]).
  unfold unsaved_store, returns_record.
  erewrite store_data_result by done.
  erewrite store_data_falsy by done.
  split_and!; [done..|].
  erewrite retrieve_data_spec; [|done|];
    [|apply truthy_str_nonempty; [apply retrieve_data_args_key | done]].
  unfold user_table, table_of.
  destruct (user_data_stores st !! user_id server) as [l|] eqn:Hl; [|done].
  apply (wf_truthy _ Hwf) in Hl. congruence.
Qed.

Lemma falsy_user_store_is_lost_witness :
  unsaved_store ok_host ok_host anonymous_server "test_key" "test_value"
    (run [CreateServer None None None] init_state)
  ∧ json_field "status" (store_result ok_host "test_key" "test_value")
    = Some (JStr "success")
  ∧ json_field "status" (retrieve_not_found_result ok_host "test_key")
    = Some (JStr "not_found").
Proof.
  apply (falsy_user_store_is_lost ok_host ok_host anonymous_server
           "test_key" "test_value" (run [CreateServer None None None] init_state)).
  - apply reachable_run. by exists [].
  - left. reflexivity.
  - discriminate.
  - discriminate.
  - vm_compute. reflexivity.
  - vm_compute. reflexivity.
Defined.

(** C10 as stated fails when the credential lookup fails: [store_data] on
    a server without a user then returns the authentication error text,
    not a [success] record. *)
Lemma falsy_user_unauthenticated :
  (handle_call_tool no_creds_host anonymous_server "store_data"
     (store_data_args "test_key" "test_value") init_state).1
  = Return [text_content
      ("Authentication error: Simple Tools API key not found for user "
       +:+ "None. Please run authentication first.")]
  ∧ ¬ unsaved_store no_creds_host no_creds_host anonymous_server
        "test_key" "test_value" init_state.
Proof.
  split.
  - vm_compute. reflexivity.
  - unfold unsaved_store, returns_record. intros [Hret _].
    vm_compute in Hret. discriminate.
Qed.


(** * Further properties of the module *)

(** ** Server creation *)

Lemma create_server_user_table u k c st u' :
  state_wf st →
  user_table (create_server u k c st).2 u' = user_table st u'.
Proof.
  intros Hwf. rewrite create_server_state.
  destruct (opt_truthy u); simpl; [|done].
  case_bool_decide as Hnew; [|done]. unfold user_table.
  destruct (decide (u' = u)) as [->|Hne].
  - rewrite bind_fresh_table. unfold table_of. by rewrite Hnew.
  - by rewrite bind_fresh_other.
Qed.

Lemma create_server_table_kept u k c st u' d :
  state_wf st → table_of st u' = Some d →
  table_of (create_server u k c st).2 u' = Some d.
Proof.
  intros Hwf Htable. rewrite create_server_state.
  destruct (opt_truthy u); simpl; [|done].
  case_bool_decide as Hnew; [|done].
  rewrite bind_fresh_other; [done..|].
  intros ->. unfold table_of in Htable. by rewrite Hnew in Htable.
Qed.

(** X1: in a reachable state, [create_server] never resets or loses
    stored data: every table bound before the call is bound to the same
    contents after it, and every tool call returns after the call what it
    would have returned before it. *)
Theorem create_server_keeps_data u k c st :
  reachable st →
  (∀ u' d, table_of st u' = Some d →
           table_of (create_server u k c st).2 u' = Some d)
  ∧ ∀ h server name arguments,
      (handle_call_tool h server name arguments (create_server u k c st).2).1
      = (handle_call_tool h server name arguments st).1.
Proof.
  intros Hwf%reachable_wf. split.
  - intros u' d. by apply create_server_table_kept.
  - intros h server name arguments.
    by apply handle_call_tool_reads_own, create_server_user_table.
Qed.

Lemma create_server_keeps_data_witness :
  (∀ u' d,
     table_of
       (run [CreateServer (Some "local") None None;
             CallTool ok_host local_server "store_data"
               (store_data_args "test_key" "test_value")] init_state) u'
     = Some d →
     table_of
       (create_server (Some "local") None None
          (run [CreateServer (Some "local") None None;
                CallTool ok_host local_server "store_data"
                  (store_data_args "test_key" "test_value")] init_state)).2
       u'
     = Some d)
  ∧ ∀ h server name arguments,
      (handle_call_tool h server name arguments
         (create_server (Some "local") None None
            (run [CreateServer (Some "local") None None;
                  CallTool ok_host local_server "store_data"
                    (store_data_args "test_key" "test_value")]
               init_state)).2).1
      = (handle_call_tool h server name arguments
           (run [CreateServer (Some "local") None None;
                 CallTool ok_host local_server "store_data"
                   (store_data_args "test_key" "test_value")]
              init_state)).1.
Proof.
  apply (create_server_keeps_data (Some "local") None None
           (run [CreateServer (Some "local") None None;
                 CallTool ok_host local_server "store_data"
                   (store_data_args "test_key" "test_value")] init_state)).
  apply reachable_run. by exists [].
Defined.

(** X2: [create_server] returns a server carrying the user identifier,
    API key and config it was given; for a truthy user identifier the
    user is bound afterwards, for [None] or the empty string the state is
    untouched, and creating a server for the same user again changes
    nothing more. *)
Theorem create_server_idempotent u k c k' c' st :
  (create_server u k c st).1
  = Return {| user_id := u; api_key := k; config := c |}
  ∧ (opt_truthy u = true →
     is_Some (user_data_stores (create_server u k c st).2 !! u))
  ∧ (opt_truthy u = false → (create_server u k c st).2 = st)
  ∧ (create_server u k' c' (create_server u k c st).2).2
    = (create_server u k c st).2.
Proof.
  split_and!.
  - unfold create_server. destruct (opt_truthy u); [|done].
    unfold bind, user_data_stores_lacks, user_data_stores_setitem, ret.
    by case_bool_decide.
  - intros Htruthy. rewrite create_server_state, Htruthy. simpl.
    case_bool_decide as Hnew; simpl.
    + rewrite lookup_insert_eq. eauto.
    + by apply not_eq_None_Some.
  - intros Hfalsy. by rewrite create_server_state, Hfalsy.
  - rewrite (create_server_state u k' c').
    destruct (opt_truthy u) eqn:Htruthy; [|done]. simpl.
    case_bool_decide as Hnew; [|done].
    rewrite create_server_state, Htruthy in Hnew. simpl in Hnew.
    case_bool_decide as Hold; simpl in Hnew; [|done].
    by rewrite lookup_insert_eq in Hnew.
Qed.

(** ** The state invariant, spelled out *)

(** X3: in every state the process can reach, a user bound in
    [user_data_stores] has a truthy identifier (neither [None] nor the
    empty string), its dict object exists and has pairwise distinct keys,
    and no other user is bound to the same dict object. *)
Theorem reachable_states_are_well_formed st u l :
  reachable st →
  user_data_stores st !! u = Some l →
  opt_truthy u = true
  ∧ (∃ d, heap st !! l = Some d ∧ NoDup d.*1)
  ∧ ∀ u', user_data_stores st !! u' = Some l → u' = u.
Proof.
  intros Hwf%reachable_wf Hu. split_and!.
  - by eapply wf_truthy.
  - destruct (lookup_lt_is_Some_2 (heap st) l) as [d Hd];
      [by eapply wf_bound|].
    exists d. split; [done|]. by eapply (wf_dicts _ Hwf).
  - intros u' Hu'. by eapply wf_separate.
Qed.

Lemma reachable_states_are_well_formed_witness :
  opt_truthy (Some "local") = true
  ∧ (∃ d,
       heap (run [CreateServer (Some "local") None None;
                  CreateServer (Some "other") None None] init_state) !! 0
       = Some d ∧ NoDup d.*1)
  ∧ ∀ u',
      user_data_stores
        (run [CreateServer (Some "local") None None;
              CreateServer (Some "other") None None] init_state) !! u'
      = Some 0 →
      u' = Some "local".
Proof.
  apply (reachable_states_are_well_formed
           (run [CreateServer (Some "local") None None;
                 CreateServer (Some "other") None None] init_state)
           (Some "local") 0).
  - apply reachable_run. by exists [].
  - vm_compute. reflexivity.
Defined.

(** ** Persistence of stored values *)

Lemma step_keeps_key st ev u key :
  state_wf st → ¬ stores_key u key ev →
  dict_get key (user_table (step st ev) u) = dict_get key (user_table st u).
Proof.
  intros Hwf Hev.
  destruct (decide (event_user ev = u)) as [Hu|Hu];
    [|unfold user_table; by rewrite step_other].
  destruct ev as [u0 k c|h server name arguments]; simpl in *.
  - by rewrite create_server_user_table.
  - subst u.
    destruct (handle_call_tool_cases h server name arguments st)
      as [->|(Hauth & -> & key' & value' & Hkey & Hvalue)]; [done|].
    destruct (opt_truthy (user_id server)) eqn:Htruthy.
    + unfold user_table at 1. erewrite store_data_table by done. simpl.
      apply dict_get_set_ne.
      intros ->. apply Hev. split_and!; [done..|].
      by apply truthy_str_Some in Hkey as [? _].
    + by erewrite store_data_falsy.
Qed.

Lemma run_keeps_key tr st u key :
  state_wf st → Forall (λ ev, ¬ stores_key u key ev) tr →
  dict_get key (user_table (run tr st) u) = dict_get key (user_table st u).
Proof.
  unfold run. intros Hwf Hall. revert st Hwf.
  induction Hall as [|ev tr Hev Hall IH]; intros st Hwf; simpl; [done|].
  rewrite IH by by apply step_wf. by apply step_keeps_key.
Qed.

(** What [retrieve_data(key)] returns is a function of the entry for
    [key] in the user's table. *)
Lemma retrieve_reads_key h server key st1 st2 :
  dict_get key (user_table st1 (user_id server))
  = dict_get key (user_table st2 (user_id server)) →
  (handle_call_tool h server "retrieve_data" (retrieve_data_args key) st1).1
  = (handle_call_tool h server "retrieve_data" (retrieve_data_args key) st2).1.
Proof.
  intros Hkey. destruct (authenticated h server) eqn:Hauth.
  - rewrite !retrieve_data_outcome by done.
    destruct (negb _); [done|]. rewrite retrieve_data_args_key.
    destruct (truthy_str (Some key)) as [key'|] eqn:Htruthy; [|done].
    apply truthy_str_Some in Htruthy as [[= ->] _]. by rewrite Hkey.
  - apply authenticated_false in Hauth.
    unfold handle_call_tool. by rewrite Hauth.
Qed.

(** X4: a stored entry is stable. From a reachable state, across any
    events among which no [store_data] call of user [u] names [key]
    (stores of other keys, calls of other users, server creations,
    failed calls), the entry for [key] in [u]'s table is the same, and
    [retrieve_data(key)] as [u] returns what it returned before. *)
Theorem stored_value_persists st tr u key :
  reachable st →
  Forall (λ ev, ¬ stores_key u key ev) tr →
  dict_get key (user_table (run tr st) u) = dict_get key (user_table st u)
  ∧ ∀ h server,
      user_id server = u →
      (handle_call_tool h server "retrieve_data" (retrieve_data_args key)
         (run tr st)).1
      = (handle_call_tool h server "retrieve_data" (retrieve_data_args key)
           st).1.
Proof.
  intros Hwf%reachable_wf Hall.
  assert (dict_get key (user_table (run tr st) u)
          = dict_get key (user_table st u)) as Hkey
    by by apply run_keeps_key.
  split; [done|]. intros h server <-. by apply retrieve_reads_key.
Qed.

Lemma stored_value_persists_witness :
  dict_get "test_key"
    (user_table
       (run [CallTool ok_host local_server "store_data"
               (store_data_args "another_key" "another_value");
             CallTool ok_host other_server "store_data"
               (store_data_args "test_key" "hidden");
             CreateServer (Some "local") None None]
          (run [CallTool ok_host local_server "store_data"
                  (store_data_args "test_key" "test_value")] init_state))
       (Some "local"))
  = dict_get "test_key"
      (user_table
         (run [CallTool ok_host local_server "store_data"
                 (store_data_args "test_key" "test_value")] init_state)
         (Some "local"))
  ∧ ∀ h server,
      user_id server = Some "local" →
      (handle_call_tool h server "retrieve_data"
         (retrieve_data_args "test_key")
         (run [CallTool ok_host local_server "store_data"
                 (store_data_args "another_key" "another_value");
               CallTool ok_host other_server "store_data"
                 (store_data_args "test_key" "hidden");
               CreateServer (Some "local") None None]
            (run [CallTool ok_host local_server "store_data"
                    (store_data_args "test_key" "test_value")]
               init_state))).1
      = (handle_call_tool h server "retrieve_data"
           (retrieve_data_args "test_key")
           (run [CallTool ok_host local_server "store_data"
                   (store_data_args "test_key" "test_value")]
              init_state)).1.
Proof.
  apply (stored_value_persists
           (run [CallTool ok_host local_server "store_data"
                   (store_data_args "test_key" "test_value")] init_state)
           [CallTool ok_host local_server "store_data"
              (store_data_args "another_key" "another_value");
            CallTool ok_host other_server "store_data"
              (store_data_args "test_key" "hidden");
            CreateServer (Some "local") None None]
           (Some "local") "test_key").
  - apply reachable_run. by exists [].
  - repeat constructor.
    + intros (_ & _ & H). vm_compute in H. discriminate.
    + intros (H & _). discriminate.
    + intros [].
Defined.

(** ** Insertion order *)

(** X5: an authenticated [store_data] by a user with a non-empty
    identifier keeps the listing order: a key that is already in the
    table keeps its position, a new key goes to the end, and the values
    of all other keys are unchanged. *)
Theorem store_keeps_insertion_order h server key value st :
  reachable st →
  opt_truthy (user_id server) = true →
  authenticated h server = true →
  key ≠ "" → value ≠ "" →
  let before := user_table st (user_id server) in
  let after :=
    user_table
      (handle_call_tool h server "store_data" (store_data_args key value) st).2
      (user_id server) in
  after.*1 = (if dict_contains key before then before.*1
              else before.*1 ++ [key])
  ∧ ∀ k', k' ≠ key → dict_get k' after = dict_get k' before.
Proof.
  intros Hwf%reachable_wf Htruthy Hauth Hk Hv. simpl.
  rewrite store_data_user_table by done. split.
  - apply dict_set_keys.
  - intros k' Hne. by apply dict_get_set_ne.
Qed.

Lemma store_keeps_insertion_order_witness :
  (user_table
     (handle_call_tool ok_host local_server "store_data"
        (store_data_args "test_key" "changed")
        (run (store_calls local_server
                [(ok_host, ("test_key", "test_value"));
                 (ok_host, ("another_key", "another_value"))])
           init_state)).2
     (Some "local")).*1
  = ["test_key"; "another_key"].
Proof.
  destruct (store_keeps_insertion_order ok_host local_server
              "test_key" "changed"
              (run (store_calls local_server
                      [(ok_host, ("test_key", "test_value"));
                       (ok_host, ("another_key", "another_value"))])
                 init_state)) as [Hkeys _].
  - apply reachable_run. by exists [].
  - reflexivity.
  - vm_compute. reflexivity.
  - discriminate.
  - discriminate.
  - exact Hkeys.
Defined.

(** ** Faults and responses *)

(** X6: a call that raises has no effect. Whenever [handle_call_tool]
    raises, the state is unchanged, authentication had succeeded, and the
    fault is one of [Missing arguments], [Missing key or value],
    [Missing key] or [Unknown tool: <name>]. *)
Theorem faults_have_no_effect h server name arguments st e :
  (handle_call_tool h server name arguments st).1 = Raise e →
  (handle_call_tool h server name arguments st).2 = st
  ∧ authenticated h server = true
  ∧ (invalid_argument e ∨ e = ValueError ("Unknown tool: " +:+ name)).
Proof.
  intros Hraise. destruct (authenticated h server) eqn:Hauth.
  - split_and!; [|done|].
    + destruct (handle_call_tool_cases h server name arguments st)
        as [?|(_ & -> & key & value & Hkey & Hvalue)]; [done|].
      by erewrite store_data_result in Hraise.
    + unfold invalid_argument.
      destruct (String.eqb_spec name "store_data") as [->|Hstore].
      { rewrite store_data_outcome in Hraise by done.
        destruct (negb _); [naive_solver|].
        destruct (truthy_str (arguments_get arguments "key"));
          [destruct (truthy_str (arguments_get arguments "value"))|];
          naive_solver. }
      destruct (String.eqb_spec name "retrieve_data") as [->|Hretrieve].
      { rewrite retrieve_data_outcome in Hraise by done.
        destruct (negb _); [naive_solver|].
        destruct (truthy_str (arguments_get arguments "key")); naive_solver. }
      destruct (String.eqb_spec name "list_data") as [->|Hlist].
      { by rewrite list_data_spec in Hraise. }
      rewrite unknown_tool_spec in Hraise by done. naive_solver.
  - apply authenticated_false in Hauth.
    unfold handle_call_tool in Hraise. by rewrite Hauth in Hraise.
Qed.

Lemma faults_have_no_effect_witness :
  (handle_call_tool ok_host local_server "store_data"
     (Some {["key" := "test_key"]}) init_state).2 = init_state
  ∧ authenticated ok_host local_server = true
  ∧ (invalid_argument (ValueError "Missing key or value")
     ∨ ValueError "Missing key or value"
       = ValueError ("Unknown tool: " +:+ "store_data")).
Proof.
  apply (faults_have_no_effect ok_host local_server "store_data"
           (Some {["key" := "test_key"]}) init_state
           (ValueError "Missing key or value")).
  vm_compute. reflexivity.
Defined.

(** X7: whenever [handle_call_tool] returns, with or without
    credentials and for every tool, it returns exactly one content block,
    of type [text]. *)
Theorem responses_are_one_text_block h server name arguments st blocks :
  (handle_call_tool h server name arguments st).1 = Return blocks →
  ∃ s, blocks = [{| type := "text"; text := s |}].
Proof.
  intros Hret. destruct (authenticated h server) eqn:Hauth.
  - destruct (String.eqb_spec name "store_data") as [->|Hstore].
    { rewrite store_data_outcome in Hret by done.
      destruct (negb _); [done|].
      destruct (truthy_str (arguments_get arguments "key"));
        [destruct (truthy_str (arguments_get arguments "value"))|];
        try done.
      injection Hret as <-. by eexists. }
    destruct (String.eqb_spec name "retrieve_data") as [->|Hretrieve].
    { rewrite retrieve_data_outcome in Hret by done.
      destruct (negb _); [done|].
      destruct (truthy_str (arguments_get arguments "key")); [|done].
      injection Hret as <-. by eexists. }
    destruct (String.eqb_spec name "list_data") as [->|Hlist].
    { rewrite list_data_spec in Hret by done.
      injection Hret as <-. by eexists. }
    by rewrite unknown_tool_spec in Hret.
  - apply authenticated_false in Hauth.
    unfold handle_call_tool in Hret. rewrite Hauth in Hret.
    injection Hret as <-. by eexists.
Qed.

Lemma responses_are_one_text_block_witness :
  ∃ s,
    [text_content (json_dumps (list_empty_result ok_host))]
    = [{| type := "text"; text := s |}].
Proof.
  apply (responses_are_one_text_block ok_host local_server "list_data" None
           init_state).
  vm_compute. reflexivity.
Defined.

(** ** The authentication gate and the auth command *)

Lemma get_simple_tools_credentials_iff h user api k :
  get_simple_tools_credentials h user api = Return k
  ↔ k ≠ ""
    ∧ (get_user_credentials (create_auth_client h api) "simple-tools" user
       = CredStr k
       ∨ ∃ d,
           get_user_credentials (create_auth_client h api) "simple-tools" user
           = CredDict d
           ∧ d !! "api_key" = Some k).
Proof.
  unfold get_simple_tools_credentials.
  destruct (get_user_credentials _ _ _) as [|s|d]; simpl.
  - split; [done|]. by intros [_ [?|(d & ? & _)]].
  - destruct s as [|c s]; simpl.
    + split; [done|]. intros [Hne [[= <-]|(d & ? & _)]]; done.
    + split.
      * intros [= <-]. split; [done|by left].
      * intros [_ [[= <-]|(d & ? & _)]]; done.
  - case_bool_decide as Hd; simpl.
    + destruct (truthy_str (d !! "api_key")) as [k'|] eqn:Hkey.
      * apply truthy_str_Some in Hkey as [Hkey Hne]. split.
        -- intros [= <-]. eauto.
        -- intros [_ [?|(d' & [= <-] & Hk)]]; [done|]. congruence.
      * split; [done|]. intros [Hne [?|(d' & [= <-] & Hk)]]; [done|].
        assert (truthy_str (d !! "api_key") = Some k) as Hsome
          by by apply truthy_str_Some.
        congruence.
    + subst d. split; [done|].
      intros [_ [?|(d' & [= <-] & Hk)]]; [done|].
      by rewrite lookup_empty in Hk.
Qed.

(** X8: [get_simple_tools_credentials] returns a key [k] exactly when
    [k] is non-empty and the auth client hands back either the bare
    string [k] or a dict whose [api_key] entry is [k]; the two payload
    shapes are treated alike, and a returned key is never empty. *)
Theorem gate_accepts_exactly h user api k :
  get_simple_tools_credentials h user api = Return k
  ↔ k ≠ ""
    ∧ (get_user_credentials (create_auth_client h api) "simple-tools" user
       = CredStr k
       ∨ ∃ d,
           get_user_credentials (create_auth_client h api) "simple-tools" user
           = CredDict d
           ∧ d !! "api_key" = Some k).
Proof. apply get_simple_tools_credentials_iff. Qed.

Lemma py_lstrip_split s :
  ∃ pre, s = pre +:+ py_lstrip s ∧ blank pre = true.
Proof.
  induction s as [|c s (pre & Hs & Hpre)].
  - by exists "".
  - cbn [py_lstrip]. destruct (py_isspace c) eqn:Hc.
    + exists (String c pre). split.
      * change (String c s = String c (pre +:+ py_lstrip s)). by f_equal.
      * simpl. by rewrite Hc.
    + by exists "".
Qed.

Lemma py_rstrip_empty s : py_rstrip s = "" ↔ blank s = true.
Proof.
  induction s as [|c s IH]; simpl; [done|].
  destruct (py_rstrip s) as [|c' kept].
  - destruct (py_isspace c); simpl; [by rewrite <- IH | done].
  - split; [done|]. intros [_ Hs]%andb_true_iff. by apply IH in Hs.
Qed.

Lemma py_rstrip_split s :
  ∃ post, s = py_rstrip s +:+ post ∧ blank post = true.
Proof.
  induction s as [|c s (post & Hs & Hpost)].
  - by exists "".
  - cbn [py_rstrip]. destruct (py_rstrip s) as [|c' kept] eqn:Hkept.
    + destruct (py_isspace c) eqn:Hc.
      * exists (String c s). split; [done|]. simpl. rewrite Hc. simpl.
        by apply py_rstrip_empty.
      * exists post. split; [|done]. simpl in *. by f_equal.
    + exists post. split; [|done].
      change (String c s = String c (String c' kept +:+ post)). by f_equal.
Qed.

Lemma blank_lstrip s : blank (py_lstrip s) = blank s.
Proof.
  induction s as [|c s IH]; simpl; [done|].
  destruct (py_isspace c) eqn:Hc; simpl; [done|]. by rewrite Hc.
Qed.

Lemma py_strip_empty s : py_strip s = "" ↔ blank s = true.
Proof. unfold py_strip. by rewrite py_rstrip_empty, blank_lstrip. Qed.

Lemma py_rstrip_idemp s : py_rstrip (py_rstrip s) = py_rstrip s.
Proof.
  induction s as [|c s IH]; simpl; [done|].
  destruct (py_rstrip s) as [|c' kept] eqn:Hkept.
  - destruct (py_isspace c) eqn:Hc; simpl; [done|]. by rewrite Hc.
  - change (py_rstrip (String c (String c' kept)) = String c (String c' kept)).
    cbn [py_rstrip] in *. by rewrite IH.
Qed.

(** Right-stripping keeps the head of a string that starts with a
    character other than whitespace. *)
Lemma py_lstrip_rstrip s :
  py_lstrip (py_rstrip (py_lstrip s)) = py_rstrip (py_lstrip s).
Proof.
  induction s as [|c s IH]; simpl; [done|].
  destruct (py_isspace c) eqn:Hc; [done|]. simpl.
  destruct (py_rstrip s) as [|c' kept]; rewrite ?Hc; simpl; by rewrite Hc.
Qed.

Lemma py_strip_idemp s : py_strip (py_strip s) = py_strip s.
Proof.
  unfold py_strip. by rewrite py_lstrip_rstrip, py_rstrip_idemp.
Qed.

Lemma py_strip_split s :
  ∃ pre post,
    s = pre +:+ py_strip s +:+ post ∧ blank pre = true ∧ blank post = true.
Proof.
  destruct (py_lstrip_split s) as (pre & Hs & Hpre).
  destruct (py_rstrip_split (py_lstrip s)) as (post & Hl & Hpost).
  exists pre, post. split_and!; [|done..].
  unfold py_strip. by rewrite <- Hl.
Qed.

Lemma str_truthy_false s : str_truthy s = false ↔ s = "".
Proof. by destruct s. Qed.

(** X9: [authenticate_and_save_credentials] raises
    [ValueError("API key cannot be empty")] and saves nothing when the
    typed line is empty or all whitespace; otherwise it returns the line
    without its leading and trailing whitespace, which is non-empty, and
    saves exactly one record, [{"api_key": key}], under the service
    [simple-tools] and the given user. *)
Theorem auth_command_saves_stripped_key input user :
  (blank input = true →
   authenticate_and_save_credentials input user
   = (Raise (ValueError "API key cannot be empty"), []))
  ∧ (blank input = false →
     ∃ k,
       authenticate_and_save_credentials input user
       = (Return k,
          [{| save_service := "simple-tools";
              save_user := user;
              save_credentials := CredDict {["api_key" := k]} |}])
       ∧ k ≠ ""
       ∧ py_strip k = k
       ∧ ∃ pre post,
           input = pre +:+ k +:+ post
           ∧ blank pre = true ∧ blank post = true).
Proof.
  unfold authenticate_and_save_credentials. split.
  - intros Hblank%py_strip_empty. by rewrite Hblank.
  - intros Hblank. exists (py_strip input).
    destruct (str_truthy (py_strip input)) eqn:Hkey; simpl.
    + split_and!; [done| |apply py_strip_idemp|apply py_strip_split].
      intros Hempty. by rewrite Hempty in Hkey.
    + apply str_truthy_false, py_strip_empty in Hkey. congruence.
Qed.

(** X10: the credentials saved by [authenticate_and_save_credentials]
    pass the gate. The record is filed under the service name and user
    the gate asks for, and when the auth client hands the saved payload
    back, [get_simple_tools_credentials] returns the very key the command
    returned. *)
Theorem saved_credentials_pass_gate input user k saves sc h server :
  authenticate_and_save_credentials input user = (Return k, saves) →
  sc ∈ saves →
  credentials_for h server = save_credentials sc →
  save_service sc = "simple-tools"
  ∧ save_user sc = user
  ∧ get_simple_tools_credentials h (user_id server) (api_key server)
    = Return k.
Proof.
  unfold authenticate_and_save_credentials.
  destruct (str_truthy (py_strip input)) eqn:Hkey; simpl; [|done].
  intros [= <- <-] ->%list_elem_of_singleton Hcreds. simpl in *.
  split_and!; [done..|].
  apply get_simple_tools_credentials_iff. split.
  - intros Hempty. by rewrite Hempty in Hkey.
  - right. eexists. split; [exact Hcreds|]. apply lookup_singleton_eq.
Qed.

Lemma saved_credentials_pass_gate_witness :
  save_service
    {| save_service := "simple-tools";
       save_user := Some "local";
       save_credentials := CredDict {["api_key" := "secret"]} |}
  = "simple-tools"
  ∧ save_user
      {| save_service := "simple-tools";
         save_user := Some "local";
         save_credentials := CredDict {["api_key" := "secret"]} |}
    = Some "local"
  ∧ get_simple_tools_credentials ok_host (user_id local_server)
      (api_key local_server)
    = Return "secret".
Proof.
  apply (saved_credentials_pass_gate "  secret  " (Some "local") "secret"
           [{| save_service := "simple-tools";
               save_user := Some "local";
               save_credentials := CredDict {["api_key" := "secret"]} |}]
           {| save_service := "simple-tools";
              save_user := Some "local";
              save_credentials := CredDict {["api_key" := "secret"]} |}
           ok_host local_server).
  - vm_compute. reflexivity.
  - apply list_elem_of_singleton. reflexivity.
  - vm_compute. reflexivity.
Defined.

(** ** The command line *)

(** X11: the [__main__] block saves credentials only on request. Every
    record it saves is for the user [local] under the service
    [simple-tools] with a non-empty key; it saves exactly one record when
    the first argument lower-cases to [auth] and the typed line is not
    blank, ends with the uncaught [ValueError] when that line is blank,
    and in every other case prints the three usage lines, saves nothing
    and ends normally. *)
Theorem main_saves_only_on_request argv input :
  (∀ sc, sc ∈ saved (main argv input) →
         save_user sc = Some "local"
         ∧ save_service sc = "simple-tools"
         ∧ ∃ k, save_credentials sc = CredDict {["api_key" := k]} ∧ k ≠ "")
  ∧ (auth_requested argv = true → blank input = false →
     length (saved (main argv input)) = 1
     ∧ uncaught (main argv input) = None)
  ∧ (auth_requested argv = true → blank input = true →
     saved (main argv input) = []
     ∧ uncaught (main argv input)
       = Some (ValueError "API key cannot be empty"))
  ∧ (auth_requested argv = false →
     saved (main argv input) = []
     ∧ uncaught (main argv input) = None
     ∧ length (stdout (main argv input)) = 3).
Proof.
  unfold main, authenticate_and_save_credentials.
  destruct (auth_requested argv); [|by split_and!; try done; intros sc []%elem_of_nil].
  destruct (str_truthy (py_strip input)) eqn:Hkey; simpl.
  - assert (blank input = false) as Hblank.
    { destruct (blank input) eqn:Hb; [|done].
      apply py_strip_empty in Hb. by rewrite Hb in Hkey. }
    split_and!; [|done|congruence|done].
    intros sc ->%list_elem_of_singleton. simpl.
    split_and!; [done..|]. eexists. split; [done|].
    intros Hempty. by rewrite Hempty in Hkey.
  - apply str_truthy_false, py_strip_empty in Hkey.
    split_and!; [by intros sc []%elem_of_nil|congruence|done..].
Qed.

(** ** Prompts *)

(** X12: [handle_get_prompt] answers exactly the prompts that
    [handle_list_prompts] lists: for a listed name it returns one user
    message of type [text] and the description the listing shows, for
    any other name it raises [ValueError("Unknown prompt: <name>")];
    the arguments play no part. *)
Theorem prompts_listed_iff_served name arguments :
  (name ∈ prompt_name <$> handle_list_prompts →
   ∃ r,
     handle_get_prompt name arguments = Return r
     ∧ (∃ p, p ∈ handle_list_prompts ∧ prompt_name p = name
             ∧ prompt_description p = description r)
     ∧ ∃ s, messages r = [{| role := "user"; content := text_content s |}])
  ∧ (name ∉ prompt_name <$> handle_list_prompts →
     handle_get_prompt name arguments
     = Raise (ValueError ("Unknown prompt: " +:+ name))).
Proof.
  unfold handle_get_prompt, handle_list_prompts. simpl. split.
  - intros ->%list_elem_of_singleton. simpl. eexists. split; [done|].
    split; [|by eexists].
    eexists. split; [by apply list_elem_of_singleton|done].
  - rewrite list_elem_of_singleton. intros Hne.
    by destruct (String.eqb_spec name "system").
Qed.

(** ** The tool listing against the dispatcher *)

Lemma tool_names :
  tool_name <$> handle_list_tools = ["store_data"; "retrieve_data"; "list_data"].
Proof. reflexivity. Qed.

(** X13: for an authenticated call, the dispatcher knows exactly the
    tools [handle_list_tools] lists: it raises the unknown-tool fault if
    and only if the requested name is not the name of a listed tool. *)
Theorem listed_tools_are_dispatched h server name arguments st :
  authenticated h server = true →
  raises_unknown_tool h server name arguments st
  ↔ name ∉ tool_name <$> handle_list_tools.
Proof.
  intros Hauth. rewrite tool_names. unfold raises_unknown_tool.
  rewrite !not_elem_of_cons. split.
  - intros Hraise. split_and!; [| | |apply not_elem_of_nil]; intros ->.
    + rewrite store_data_outcome in Hraise by done.
      destruct (negb _); [done|].
      destruct (truthy_str (arguments_get arguments "key"));
        [destruct (truthy_str (arguments_get arguments "value"))|]; done.
    + rewrite retrieve_data_outcome in Hraise by done.
      destruct (negb _); [done|].
      by destruct (truthy_str (arguments_get arguments "key")).
    + by rewrite list_data_spec in Hraise.
  - intros (H1 & H2 & H3 & _). by rewrite unknown_tool_spec.
Qed.

Lemma listed_tools_are_dispatched_witness :
  raises_unknown_tool ok_host local_server "delete_data" None init_state
  ↔ "delete_data" ∉ tool_name <$> handle_list_tools.
Proof.
  apply (listed_tools_are_dispatched ok_host local_server "delete_data" None
           init_state).
  vm_compute. reflexivity.
Defined.

Section schema_faults.
Context (h : host) (server : Server).
Context (arguments : option (gmap string string)) (st : state).
Hypothesis Hauth : authenticated h server = true.

Lemma store_data_raises_iff :
  raises_invalid_argument
    (handle_call_tool h server "store_data" arguments st).1
  ↔ missing_or_empty arguments "key" ∨ missing_or_empty arguments "value".
Proof using Hauth.
  unfold raises_invalid_argument, invalid_argument.
  rewrite store_data_outcome by done. rewrite <- !truthy_str_None.
  destruct (arguments_truthy arguments) eqn:Hargs; simpl.
  - destruct (truthy_str (arguments_get arguments "key")) as [key|];
      [destruct (truthy_str (arguments_get arguments "value")) as [value|]|].
    + split; [by intros (e & [=] & _) | by intros [[=]|[=]]].
    + split; eauto 6.
    + split; eauto 6.
  - rewrite !(arguments_falsy_get _ _ Hargs). simpl. split; eauto 6.
Qed.

Lemma retrieve_data_raises_iff :
  raises_invalid_argument
    (handle_call_tool h server "retrieve_data" arguments st).1
  ↔ missing_or_empty arguments "key".
Proof using Hauth.
  unfold raises_invalid_argument, invalid_argument.
  rewrite retrieve_data_outcome by done. rewrite <- !truthy_str_None.
  destruct (arguments_truthy arguments) eqn:Hargs; simpl.
  - destruct (truthy_str (arguments_get arguments "key")) as [key|].
    + split; [by intros (e & [=] & _) | done].
    + split; eauto 6.
  - rewrite !(arguments_falsy_get _ _ Hargs). simpl. split; eauto 6.
Qed.

Lemma list_data_never_raises :
  ¬ raises_invalid_argument
      (handle_call_tool h server "list_data" arguments st).1.
Proof using Hauth.
  unfold raises_invalid_argument. rewrite list_data_spec by done.
  by intros (e & [=] & _).
Qed.
End schema_faults.

(** X14: the [required] entry of each listed tool's input schema is
    exactly what the handler insists on. For an authenticated call of a
    listed tool, the handler raises an invalid-argument fault if and only
    if one of the fields the schema requires is missing from the
    arguments or is the empty string; [list_data], which requires
    nothing, never raises one. *)
Theorem schema_required_matches_faults h server arguments st t :
  authenticated h server = true →
  t ∈ handle_list_tools →
  raises_invalid_argument
    (handle_call_tool h server (tool_name t) arguments st).1
  ↔ ∃ k, k ∈ schema_required (inputSchema t) ∧ missing_or_empty arguments k.
Proof.
  intros Hauth Ht. unfold handle_list_tools in Ht.
  rewrite !elem_of_cons, elem_of_nil in Ht.
  destruct Ht as [->|[->|[->|[]]]];
    cbn [tool_name inputSchema store_data_tool retrieve_data_tool
         list_data_tool].
  - rewrite store_data_raises_iff by done.
    change (schema_required _) with ["key"; "value"]. split.
    + intros [?|?]; eexists; (split; [|done]); set_solver.
    + intros (k & Hk & Hmiss).
      rewrite !elem_of_cons, elem_of_nil in Hk.
      destruct Hk as [->|[->|[]]]; eauto.
  - rewrite retrieve_data_raises_iff by done.
    change (schema_required _) with ["key"]. split.
    + intros ?. eexists. split; [|done]. set_solver.
    + intros (k & ->%list_elem_of_singleton & Hmiss). done.
  - change (schema_required _) with (@nil string). split.
    + intros Hraise. by apply list_data_never_raises in Hraise.
    + by intros (k & []%elem_of_nil & _).
Qed.

Lemma schema_required_matches_faults_witness :
  raises_invalid_argument
    (handle_call_tool ok_host local_server (tool_name retrieve_data_tool)
       (Some ∅) init_state).1
  ↔ ∃ k, k ∈ schema_required (inputSchema retrieve_data_tool)
         ∧ missing_or_empty (Some ∅) k.
Proof.
  apply (schema_required_matches_faults ok_host local_server (Some ∅)
           init_state retrieve_data_tool).
  - vm_compute. reflexivity.
  - unfold handle_list_tools. rewrite !elem_of_cons. right. left. reflexivity.
Defined.

(** X15: the examples in the output schemas are real outputs. Every
    example string listed for a tool by [handle_list_tools] is, character
    for character, the text block [handle_call_tool] returns for that
    tool in some reachable state, for some credentials, arguments,
    identifier and clock. *)
Theorem documented_examples_are_producible t ex :
  t ∈ handle_list_tools →
  ex ∈ schema_examples (outputSchema t) →
  ∃ h server arguments st,
    reachable st
    ∧ (handle_call_tool h server (tool_name t) arguments st).1
      = Return [text_content ex].
Proof.
  intros Ht Hex. unfold handle_list_tools in Ht.
  rewrite !elem_of_cons, elem_of_nil in Ht.
  destruct Ht as [->|[->|[->|[]]]];
    unfold schema_examples, pyobj_strings in Hex; simpl in Hex;
    rewrite !elem_of_cons, elem_of_nil in Hex.
  - destruct Hex as [->|[]].
    exists (example_host "12345678" 1640995200), local_server,
      (store_data_args "test_key" "test_value"), init_state.
    split; [by exists []|]. vm_compute. reflexivity.
  - destruct Hex as [->|[->|[]]].
    + exists (example_host "87654321" 1640995260), local_server,
        (retrieve_data_args "test_key"),
        (run [CallTool ok_host local_server "store_data"
                (store_data_args "test_key" "test_value")] init_state).
      split; [apply reachable_run; by exists []|]. vm_compute. reflexivity.
    + exists (example_host "11223344" 1640995260), local_server,
        (retrieve_data_args "nonexistent_key"), init_state.
      split; [by exists []|]. vm_compute. reflexivity.
  - destruct Hex as [->|[->|[]]].
    + exists (example_host "55667788" 1640995320), local_server, None,
        (run (store_calls local_server
                [(ok_host, ("test_key", "test_value"));
                 (ok_host, ("another_key", "another_value"))]) init_state).
      split; [apply reachable_run; by exists []|]. vm_compute. reflexivity.
    + exists (example_host "99887766" 1640995320), local_server, None,
        init_state.
      split; [by exists []|]. vm_compute. reflexivity.
Qed.

Lemma documented_examples_are_producible_witness :
  ∃ h server arguments st,
    reachable st
    ∧ (handle_call_tool h server (tool_name list_data_tool) arguments st).1
      = Return [text_content list_success_example].
Proof.
  apply (documented_examples_are_producible list_data_tool
           list_success_example).
  - unfold handle_list_tools. rewrite !elem_of_cons. right. right. left.
    reflexivity.
  - unfold schema_examples, pyobj_strings. simpl.
    apply elem_of_cons. left. reflexivity.
Defined.
